(** * E.U.N.A orchestration core: a shallow embedding of the Python sources

    The development follows the modules of the repository:
    - [Py]            Python values, ordered dictionaries, string helpers;
    - [TaskManager]   core/task_manager.py together with the parts of
                      services/database_service.py it queries;
    - [ToolRegistry]  tools/tool_registry.py;
    - [ToolExecutor]  tools/tool_executor.py;
    - [Agents]        core/agent_factory.py, agents/dynamic_agent.py and
                      the agent scheduling of core/orchestrator.py.

    Coroutines are modelled by explicit state passing; an exception is a
    value of type [Error], returned together with the state reached when
    it was raised, so that mutations done before a [raise] stay visible. *)

From Stdlib Require Import ZArith String Ascii List Bool Lia Sorted Permutation.
From stdpp Require Import gmap strings list fin_maps pretty.
Import ListNotations.

Local Open Scope string_scope.
Local Open Scope list_scope.

(* ===================================================================== *)
(** ** Python values and helpers                                          *)
(* ===================================================================== *)

Module Py.

Set Warnings "-register-all".

(** JSON-like Python values.  A dictionary keeps its insertion order, as
    Python dictionaries do: it is a list of bindings with distinct keys. *)
Inductive PyVal : Type :=
| VNone
| VBool (b : bool)
| VInt (n : Z)
| VStr (s : string)
| VList (items : list PyVal)
| VDict (entries : list (string * PyVal)).

Definition Dict (V : Type) : Type := list (string * V).

(** [d.get(k)] *)
Fixpoint dict_get {V : Type} (d : Dict V) (k : string) : option V :=
  match d with
  | [] => None
  | (k', v) :: d' => if String.eqb k' k then Some v else dict_get d' k
  end.

(** [d.get(k, dflt)] *)
Definition dict_get_default {V : Type} (d : Dict V) (k : string) (dflt : V) : V :=
  match dict_get d k with
  | Some v => v
  | None => dflt
  end.

(** [d[k] = v]: an existing key keeps its position, a new key goes last. *)
Fixpoint dict_set {V : Type} (d : Dict V) (k : string) (v : V) : Dict V :=
  match d with
  | [] => [(k, v)]
  | (k', v') :: d' =>
      if String.eqb k' k then (k', v) :: d' else (k', v') :: dict_set d' k v
  end.

Definition dict_keys {V : Type} (d : Dict V) : list string := map fst d.

(** Truth value of an object, as [if x:] and [not x] compute it. *)
Definition truthy (v : PyVal) : bool :=
  match v with
  | VNone => false
  | VBool b => b
  | VInt n => negb (n =? 0)%Z
  | VStr s => negb (String.eqb s "")
  | VList l => match l with [] => false | _ => true end
  | VDict d => match d with [] => false | _ => true end
  end.

(** [l[i]] for a Python [int] index: negative indices count from the end,
    anything outside [-len, len) raises IndexError ([None] here). *)
Definition py_index {A : Type} (l : list A) (i : Z) : option A :=
  let n := Z.of_nat (length l) in
  if (0 <=? i)%Z then nth_error l (Z.to_nat i)
  else if (- n <=? i)%Z then nth_error l (Z.to_nat (n + i))
  else None.

(** [s[n:]] *)
Fixpoint str_drop (n : nat) (s : string) : string :=
  match n, s with
  | O, _ => s
  | S n', String _ s' => str_drop n' s'
  | S _, EmptyString => EmptyString
  end.

(** [s.startswith(p)] *)
Definition startswith (p s : string) : bool := String.prefix p s.

(** [sub in s] *)
Fixpoint contains (sub s : string) : bool :=
  if String.prefix sub s then true
  else match s with
       | EmptyString => false
       | String _ s' => contains sub s'
       end.

(** [s.replace(old, new)] for a non-empty [old]: leftmost, non-overlapping
    occurrences.  The recursion is on [fuel], which [replace] sets to the
    length of [s] plus one. *)
Fixpoint replace_aux (fuel : nat) (old new s : string) : string :=
  match fuel with
  | O => s
  | S fuel' =>
      if String.prefix old s then
        new +:+ replace_aux fuel' old new (str_drop (String.length old) s)
      else match s with
           | EmptyString => EmptyString
           | String c s' => String c (replace_aux fuel' old new s')
           end
  end.

(** With an empty [old] Python puts [new] before every character and at
    the end. *)
Fixpoint intersperse (new s : string) : string :=
  match s with
  | EmptyString => new
  | String c s' => new +:+ String c (intersperse new s')
  end.

Definition replace (old new s : string) : string :=
  match old with
  | EmptyString => intersperse new s
  | _ => replace_aux (S (String.length s)) old new s
  end.

(** Exceptions of the modelled code. *)
Inductive Error : Type :=
| ValueError (msg : string)
| IndexError
| KeyError (key : string)
| OtherError (msg : string).

(** The result of a call that may raise. *)
Inductive Result (A : Type) : Type :=
| Ok (a : A)
| Raise (e : Error).
Arguments Ok {A} a.
Arguments Raise {A} e.

Definition is_ok {A : Type} (r : Result A) : bool :=
  match r with Ok _ => true | Raise _ => false end.

End Py.

Import Py.

(* ===================================================================== *)
(** ** core/task_manager.py                                               *)
(* ===================================================================== *)

Module TaskManager.

(** [TaskStatus] and the string each member carries ([.value]). *)
Inductive TaskStatus : Type :=
| PENDING | IN_PROGRESS | COMPLETED | FAILED | CANCELLED | PAUSED.

Definition value (s : TaskStatus) : string :=
  match s with
  | PENDING => "pending"
  | IN_PROGRESS => "in_progress"
  | COMPLETED => "completed"
  | FAILED => "failed"
  | CANCELLED => "cancelled"
  | PAUSED => "paused"
  end.

(** One entry of [workflow["step_results"]]. *)
Record StepResult : Type := mkStepResult {
  step_index : Z;
  step_name : PyVal;
  agent_result : Dict PyVal;
  executed_at : Z;
  success : PyVal
}.

(** The workflow dictionary built by [create_task_workflow]; the keys are
    fixed, so it is a record.  [completed_at] is absent until completion. *)
Record Workflow : Type := mkWorkflow {
  task_id : Z;
  steps : list (Dict PyVal);
  current_step : Z;
  step_results : list StepResult;
  status : string;
  created_at : Z;
  dependencies : list Z;
  timeout_minutes : Z;
  completed_at : option Z
}.

(** What [_store_workflow_result] hands to the memory service. *)
Record WorkflowSummary : Type := mkSummary {
  sum_task_id : Z;
  total_steps : nat;
  successful_steps : nat;
  execution_time : Z;
  sum_step_results : list StepResult
}.

(** A row of the [tasks] table (database/models.py), restricted to the
    columns the task manager reads. *)
Record Task : Type := mkTask {
  id : Z;
  t_status : string;
  priority : string;
  t_created_at : Z
}.

(** The manager object, the memory service's log of stored summaries and
    the [tasks] table it queries. *)
Record State : Type := mkState {
  task_dependencies : gmap Z (list Z);
  task_workflows : gmap Z Workflow;
  task_timeouts : gmap Z Z;
  max_concurrent_tasks : nat;
  memory : list WorkflowSummary;
  tasks : list Task
}.

Definition set_workflow (st : State) (tid : Z) (w : Workflow) : State :=
  {| task_dependencies := task_dependencies st;
     task_workflows := <[tid := w]> (task_workflows st);
     task_timeouts := task_timeouts st;
     max_concurrent_tasks := max_concurrent_tasks st;
     memory := memory st;
     tasks := tasks st |}.

Definition set_memory (st : State) (m : list WorkflowSummary) : State :=
  {| task_dependencies := task_dependencies st;
     task_workflows := task_workflows st;
     task_timeouts := task_timeouts st;
     max_concurrent_tasks := max_concurrent_tasks st;
     memory := m;
     tasks := tasks st |}.

(** [TaskManager.__init__] over a given [tasks] table. *)
Definition init (db : list Task) : State :=
  {| task_dependencies := ∅;
     task_workflows := ∅;
     task_timeouts := ∅;
     max_concurrent_tasks := 10;
     memory := [];
     tasks := db |}.

(** [create_task_workflow]; [now] is the reading of [datetime.now()]. *)
Definition create_task_workflow (st : State) (tid : Z)
    (wsteps : list (Dict PyVal)) (deps : list Z) (timeout : Z) (now : Z)
    : State * Workflow :=
  let workflow :=
    {| task_id := tid; steps := wsteps; current_step := 0;
       step_results := []; status := value PENDING; created_at := now;
       dependencies := deps; timeout_minutes := timeout;
       completed_at := None |} in
  let st1 :=
    {| task_dependencies :=
         match deps with
         | [] => task_dependencies st
         | _ => <[tid := deps]> (task_dependencies st)
         end;
       task_workflows := <[tid := workflow]> (task_workflows st);
       task_timeouts := <[tid := (now + timeout * 60)%Z]> (task_timeouts st);
       max_concurrent_tasks := max_concurrent_tasks st;
       memory := memory st;
       tasks := tasks st |} in
  (st1, workflow).

Section WithMemoryService.

(** The memory service is an external collaborator: [store_memory] either
    stores the summary ([true]) or raises ([false]). *)
Variable store_memory : WorkflowSummary -> bool.

(** [_store_workflow_result] *)
Definition _store_workflow_result (st : State) (tid : Z) (w : Workflow)
    (done_at : Z) : State * Result unit :=
  let workflow_summary :=
    {| sum_task_id := tid;
       total_steps := length (steps w);
       successful_steps :=
         length (List.filter (fun r => truthy (success r)) (step_results w));
       execution_time := (done_at - created_at w)%Z;
       sum_step_results := step_results w |} in
  if store_memory workflow_summary
  then (set_memory st (memory st ++ [workflow_summary]), Ok tt)
  else (st, Raise (OtherError "memory service")).

(** [execute_workflow_step] *)
Definition execute_workflow_step (st : State) (tid : Z) (idx : Z)
    (result : Dict PyVal) (now : Z) : State * Result StepResult :=
  match task_workflows st !! tid with
  | None =>
      (st, Raise (ValueError ("Workflow not found for task " +:+ pretty tid)))
  | Some workflow =>
      if (Z.of_nat (length (steps workflow)) <=? idx)%Z then
        (st, Raise (ValueError ("Step index " +:+ pretty idx +:+ " out of range")))
      else
        match py_index (steps workflow) idx with
        | None => (st, Raise IndexError)
        | Some step =>
            let step_result :=
              {| step_index := idx;
                 step_name :=
                   dict_get_default step "name" (VStr ("Step " +:+ pretty idx));
                 agent_result := result;
                 executed_at := now;
                 success := dict_get_default result "success" (VBool false) |} in
            let w1 :=
              {| task_id := task_id workflow;
                 steps := steps workflow;
                 current_step := (idx + 1)%Z;
                 step_results := step_results workflow ++ [step_result];
                 status := status workflow;
                 created_at := created_at workflow;
                 dependencies := dependencies workflow;
                 timeout_minutes := timeout_minutes workflow;
                 completed_at := completed_at workflow |} in
            if (Z.of_nat (length (steps w1)) <=? current_step w1)%Z then
              let w2 :=
                {| task_id := task_id w1;
                   steps := steps w1;
                   current_step := current_step w1;
                   step_results := step_results w1;
                   status := value COMPLETED;
                   created_at := created_at w1;
                   dependencies := dependencies w1;
                   timeout_minutes := timeout_minutes w1;
                   completed_at := Some now |} in
              match _store_workflow_result (set_workflow st tid w2) tid w2 now with
              | (st2, Ok _) => (st2, Ok step_result)
              | (st2, Raise e) => (st2, Raise e)
              end
            else (set_workflow st tid w1, Ok step_result)
        end
  end.

(** A run of calls for one task, each given as (step index, agent result,
    clock reading); the run stops at the first call that raises. *)
Fixpoint run_steps (st : State) (tid : Z) (calls : list (Z * Dict PyVal * Z))
    : State * bool :=
  match calls with
  | [] => (st, true)
  | (idx, result, now) :: rest =>
      match execute_workflow_step st tid idx result now with
      | (st1, Ok _) => run_steps st1 tid rest
      | (st1, Raise _) => (st1, false)
      end
  end.

End WithMemoryService.

(** *** Dependencies and scheduling *)

(** [db_service.get_task]: lookup by primary key. *)
Definition get_task (db : list Task) (tid : Z) : option Task :=
  find (fun t => (id t =? tid)%Z) db.

(** [ORDER BY created_at DESC]: insertion into a list sorted from the
    newest to the oldest row.  Rows with equal timestamps keep their table
    order (SQL leaves their order open). *)
Fixpoint insert_desc (t : Task) (sorted : list Task) : list Task :=
  match sorted with
  | [] => [t]
  | u :: rest =>
      if (t_created_at u <? t_created_at t)%Z then t :: u :: rest
      else u :: insert_desc t rest
  end.

Definition order_by_created_at_desc (db : list Task) : list Task :=
  fold_right insert_desc [] db.

(** [db_service.get_recent_tasks(limit)]:
    [select(Task).order_by(Task.created_at.desc()).limit(limit)]. *)
Definition get_recent_tasks (db : list Task) (limit : nat) : list Task :=
  firstn limit (order_by_created_at_desc db).

(** The dictionary returned by [check_task_dependencies];
    [total_dependencies] is absent on the early return. *)
Record DepCheck : Type := mkDepCheck {
  satisfied : bool;
  pending_dependencies : list Z;
  total_dependencies : option nat
}.

(** [check_task_dependencies] *)
Definition check_task_dependencies (st : State) (tid : Z) : DepCheck :=
  let deps := default [] (task_dependencies st !! tid) in
  match deps with
  | [] => {| satisfied := true; pending_dependencies := [];
             total_dependencies := None |}
  | _ =>
      let pending :=
        List.filter
          (fun dep =>
             match get_task (tasks st) dep with
             | None => true
             | Some dep_task =>
                 negb (String.eqb (t_status dep_task) (value COMPLETED))
             end) deps in
      {| satisfied := Nat.eqb (length pending) 0;
         pending_dependencies := pending;
         total_dependencies := Some (length deps) |}
  end.

(** Entries of the three buckets of the scheduling plan. *)
Record Immediate : Type := mkImmediate {
  im_task_id : Z; im_priority : string; im_created_at : Z }.
Record Limited : Type := mkLimited {
  rl_task_id : Z; rl_priority : string; rl_reason : string }.
Record Waiting : Type := mkWaiting {
  dw_task_id : Z; dw_pending_dependencies : list Z }.

Record SchedulingPlan : Type := mkPlan {
  immediate_execution : list Immediate;
  dependency_waiting : list Waiting;
  resource_limited : list Limited;
  recommendations : list string
}.

(** The body of the [for task in pending_tasks] loop. *)
Definition schedule_task (st : State) (plan : SchedulingPlan) (task : Task)
    : SchedulingPlan :=
  let dep_check := check_task_dependencies st (id task) in
  if satisfied dep_check then
    if Nat.ltb (length (immediate_execution plan)) (max_concurrent_tasks st) then
      {| immediate_execution :=
           immediate_execution plan ++
           [ {| im_task_id := id task; im_priority := priority task;
                im_created_at := t_created_at task |} ];
         dependency_waiting := dependency_waiting plan;
         resource_limited := resource_limited plan;
         recommendations := recommendations plan |}
    else
      {| immediate_execution := immediate_execution plan;
         dependency_waiting := dependency_waiting plan;
         resource_limited :=
           resource_limited plan ++
           [ {| rl_task_id := id task; rl_priority := priority task;
                rl_reason := "Max concurrent tasks reached" |} ];
         recommendations := recommendations plan |}
  else
    {| immediate_execution := immediate_execution plan;
       dependency_waiting :=
         dependency_waiting plan ++
         [ {| dw_task_id := id task;
              dw_pending_dependencies := pending_dependencies dep_check |} ];
       resource_limited := resource_limited plan;
       recommendations := recommendations plan |}.

Definition add_recommendation (plan : SchedulingPlan) (text : string)
    : SchedulingPlan :=
  {| immediate_execution := immediate_execution plan;
     dependency_waiting := dependency_waiting plan;
     resource_limited := resource_limited plan;
     recommendations := recommendations plan ++ [text] |}.

(** The tasks the scheduler looks at: the pending ones among the hundred
    most recent. *)
Definition pending_tasks (st : State) : list Task :=
  List.filter (fun t => String.eqb (t_status t) (value PENDING))
    (get_recent_tasks (tasks st) 100).

(** [optimize_task_scheduling] *)
Definition optimize_task_scheduling (st : State) : SchedulingPlan :=
  let scheduling_plan :=
    fold_left (schedule_task st) (pending_tasks st)
      {| immediate_execution := []; dependency_waiting := [];
         resource_limited := []; recommendations := [] |} in
  let plan1 :=
    match resource_limited scheduling_plan with
    | [] => scheduling_plan
    | _ => add_recommendation scheduling_plan
             "Consider increasing max_concurrent_tasks to handle more tasks simultaneously"
    end in
  match dependency_waiting plan1 with
  | [] => plan1
  | _ => add_recommendation plan1
           "Some tasks are waiting for dependencies - check if dependent tasks need attention"
  end.

End TaskManager.

(* ===================================================================== *)
(** ** tools/tool_registry.py                                             *)
(* ===================================================================== *)

Module ToolRegistry.

(** The data of a [Tool] object; its [execute] method is abstract and is
    supplied by the environment (class [Env] below). *)
Record Tool : Type := mkTool {
  name : string;
  description : string;
  parameters : Dict PyVal
}.

Record Registry : Type := mkRegistry {
  tools : gmap string Tool;
  tool_categories : gmap string (list string)
}.

(** [ToolRegistry.__init__] *)
Definition init : Registry :=
  {| tools := ∅;
     tool_categories :=
       list_to_map
         [("search", []); ("computation", []); ("communication", []);
          ("data_processing", []); ("file_operations", []); ("general", [])] |}.

(** [register_tool]: the assignment to [self.tools] comes first; the
    category list is then extended, [self.tool_categories["general"]]
    raising KeyError if that key were missing. *)
Definition register_tool (reg : Registry) (tool : Tool) (category : string)
    : Registry * Result unit :=
  let tools1 := <[name tool := tool]> (tools reg) in
  match tool_categories reg !! category with
  | Some names =>
      ({| tools := tools1;
          tool_categories :=
            <[category := names ++ [name tool]]> (tool_categories reg) |},
       Ok tt)
  | None =>
      match tool_categories reg !! "general" with
      | Some names =>
          ({| tools := tools1;
              tool_categories :=
                <["general" := names ++ [name tool]]> (tool_categories reg) |},
           Ok tt)
      | None =>
          ({| tools := tools1; tool_categories := tool_categories reg |},
           Raise (KeyError "general"))
      end
  end.

(** [get_tool]; a missing name ([None]) is never a key. *)
Definition get_tool (reg : Registry) (tool_name : option string) : option Tool :=
  match tool_name with
  | Some n => tools reg !! n
  | None => None
  end.

(** [get_tools_by_category] *)
Definition get_tools_by_category (reg : Registry) (category : string) : list Tool :=
  omap (fun n => tools reg !! n) (default [] (tool_categories reg !! category)).

Definition capability_tool_mapping : Dict (list string) :=
  [ ("web_search", ["web_search"; "duckduckgo_search"]);
    ("calculation", ["calculator"; "math_evaluator"]);
    ("data_analysis", ["csv_processor"; "json_parser"]);
    ("file_processing", ["file_reader"; "file_writer"]);
    ("communication", ["email_sender"]);
    ("scheduling", ["calendar_tool"]);
    ("code_generation", ["code_executor"; "syntax_checker"]);
    ("summarization", ["text_summarizer"]);
    ("translation", ["language_translator"]) ].

(** [tool in self.tools] *)
Definition registered (reg : Registry) (tool : string) : bool :=
  match tools reg !! tool with Some _ => true | None => false end.

(** [get_tools_for_capabilities] *)
Definition get_tools_for_capabilities (reg : Registry) (capabilities : list string)
    : list string :=
  let recommended_tools :=
    flat_map (fun capability =>
                default [] (dict_get capability_tool_mapping capability))
             capabilities in
  List.filter (registered reg) recommended_tools.

(** The names listed under ["required"] in [tool.parameters]. *)
Definition required_params (tool : Tool) : list string :=
  match dict_get (parameters tool) "required" with
  | Some (VList items) =>
      omap (fun item => match item with VStr s => Some s | _ => None end) items
  | _ => []
  end.

(** [Tool.validate_parameters] *)
Fixpoint validate_required (required : list string) (kwargs : Dict PyVal)
    : Result bool :=
  match required with
  | [] => Ok true
  | param :: rest =>
      match dict_get kwargs param with
      | None => Raise (ValueError ("Missing required parameter: " +:+ param))
      | Some _ => validate_required rest kwargs
      end
  end.

Definition validate_parameters (tool : Tool) (kwargs : Dict PyVal) : Result bool :=
  validate_required (required_params tool) kwargs.

(** [str(e)] for the exceptions of the model. *)
Definition str_of_error (e : Error) : string :=
  match e with
  | ValueError msg => msg
  | IndexError => "list index out of range"
  | KeyError key => "'" +:+ key +:+ "'"
  | OtherError msg => msg
  end.

(** [f"{tool_name}"] for a name that may be [None]. *)
Definition show_name (tool_name : option string) : string :=
  default "None" tool_name.

(** The dictionary a tool execution yields.  [step], [workflow_position]
    and [parallel_index] are the keys that [execute_tool_workflow] and
    [execute_parallel_tools] add afterwards. *)
Record ToolResult : Type := mkToolResult {
  success : bool;
  tool_name : option string;
  result : PyVal;
  error : option string;
  step : option nat;
  workflow_position : option string;
  parallel_index : option nat
}.

Definition success_result (tool_name : option string) (r : PyVal) : ToolResult :=
  {| success := true; tool_name := tool_name; result := r; error := None;
     step := None; workflow_position := None; parallel_index := None |}.

Definition failure_result (tool_name : option string) (msg : string) : ToolResult :=
  {| success := false; tool_name := tool_name; result := VNone;
     error := Some msg;
     step := None; workflow_position := None; parallel_index := None |}.

(** The collaborators of the tool layer, over a world [W] they may change:
    the [execute] method of each tool, the two database calls bracketing an
    execution, the clock and [asyncio.sleep]; and the two services of the
    Python interpreter the condition evaluator calls, [str] and [eval]
    (with [{"__builtins__": {}}] as globals). *)
Class Env (W : Type) : Type := {
  tool_execute : Tool -> Dict PyVal -> W -> W * Result PyVal;
  create_agent_execution : Z -> string -> W -> W * Result Z;
  update_agent_execution : Z -> string -> W -> W * Result unit;
  clock : W -> Z;
  sleep : Z -> W -> W;
  py_str : PyVal -> string;
  py_eval : string -> Result PyVal
}.

Section WithEnv.
Context {W : Type} `{Env W}.

(** [ToolRegistry.execute_tool] *)
Definition execute_tool (reg : Registry) (tool_name : option string)
    (kwargs : Dict PyVal) (w : W) : W * Result ToolResult :=
  match get_tool reg tool_name with
  | None => (w, Raise (ValueError ("Tool not found: " +:+ show_name tool_name)))
  | Some tool =>
      match validate_parameters tool kwargs with
      | Raise e => (w, Ok (failure_result tool_name (str_of_error e)))
      | Ok _ =>
          match tool_execute tool kwargs w with
          | (w1, Ok r) => (w1, Ok (success_result tool_name r))
          | (w1, Raise e) => (w1, Ok (failure_result tool_name (str_of_error e)))
          end
      end
  end.

End WithEnv.

End ToolRegistry.

(* ===================================================================== *)
(** ** tools/tool_executor.py                                             *)
(* ===================================================================== *)

Module ToolExecutor.

Import ToolRegistry.

(** An entry of [active_executions] and of [execution_history].  The
    record's ["result"] entry is the very dictionary handed back to the
    caller; no statistic reads it and it is left out here. *)
Record ExecutionRecord : Type := mkExecutionRecord {
  execution_id : string;
  agent_id : Z;
  ex_tool_name : option string;
  ex_parameters : Dict PyVal;
  started_at : Z;
  ex_status : string;
  ex_completed_at : option Z;
  ex_error : option string
}.

Record Executor : Type := mkExecutor {
  active_executions : gmap string ExecutionRecord;
  execution_history : list ExecutionRecord
}.

(** [ToolExecutor.__init__] *)
Definition init : Executor :=
  {| active_executions := ∅; execution_history := [] |}.

(** A step of a tool workflow: the five keys [execute_tool_workflow]
    reads, with the defaults of [step.get] already applied. *)
Record WorkflowStep : Type := mkWorkflowStep {
  tool : option string;
  step_parameters : Dict PyVal;
  condition : option string;
  continue_on_error : bool;
  delay_seconds : Z
}.

(** An entry of the list [execute_tool_workflow] returns. *)
Inductive ChainEntry : Type :=
| Skipped (step : nat) (tool : option string) (reason : string)
| Executed (r : ToolResult).



(** *** Context variables *)

(** The [if/elif] chain applied to one value of [parameters.items()];
    a nested dictionary is resolved by the recursive call, written out as
    the loop [resolved[key] = ...] over its bindings. *)
Fixpoint resolve_value (context : Dict PyVal) (value : PyVal) {struct value} : PyVal :=
  match value with
  | VStr s =>
      if startswith "$context." s
      then dict_get_default context (str_drop 9 s) value
      else value
  | VDict d =>
      VDict (fold_left
               (fun resolved kv =>
                  dict_set resolved (fst kv) (resolve_value context (snd kv)))
               d [])
  | VList items =>
      VList (map (fun item =>
                    match item with
                    | VDict d =>
                        VDict (fold_left
                                 (fun resolved kv =>
                                    dict_set resolved (fst kv)
                                      (resolve_value context (snd kv)))
                                 d [])
                    | _ => item
                    end) items)
  | _ => value
  end.

(** [_resolve_context_variables] *)
Definition _resolve_context_variables (parameters context : Dict PyVal)
    : Dict PyVal :=
  fold_left
    (fun resolved kv =>
       dict_set resolved (fst kv) (resolve_value context (snd kv)))
    parameters [].

Section WithEnv.
Context {W : Type} `{Env W}.

(** *** Conditions *)

(** The loop substituting context values into the condition text. *)
Definition resolve_condition (condition : string) (context : Dict PyVal) : string :=
  fold_left
    (fun resolved_condition kv =>
       if contains (fst kv) resolved_condition
       then replace (fst kv) (py_str (snd kv)) resolved_condition
       else resolved_condition)
    context condition.

(** The list the source binds and never reads. *)
Definition allowed_operators : list string :=
  ["=="; "!="; "and"; "or"; "True"; "False"; "None"].

Definition blocked_tokens : list string := ["import"; "exec"; "eval"; "__"].

(** [_evaluate_condition]: the value of [eval] is returned as it is; an
    exception of the [try] body yields [False]. *)
Definition _evaluate_condition (condition : string) (context : Dict PyVal) : PyVal :=
  let resolved_condition := resolve_condition condition context in
  if existsb (fun op => contains op resolved_condition) blocked_tokens
  then VBool false
  else match py_eval resolved_condition with
       | Ok v => v
       | Raise _ => VBool false
       end.

(** *** Single execution *)

Definition finish (rec : ExecutionRecord) (status : string)
    (err : option string) (now : Z) : ExecutionRecord :=
  {| execution_id := execution_id rec; agent_id := agent_id rec;
     ex_tool_name := ex_tool_name rec; ex_parameters := ex_parameters rec;
     started_at := started_at rec; ex_status := status;
     ex_completed_at := Some now; ex_error := err |}.

(** The [except Exception] handler of [execute_single_tool]. *)
Definition on_exception (active : gmap string ExecutionRecord)
    (history : list ExecutionRecord) (rec : ExecutionRecord) (e : Error) (w : W)
    : (Executor * W) * ToolResult :=
  let rec1 := finish rec "error" (Some (str_of_error e)) (clock w) in
  (({| active_executions := delete (execution_id rec) active;
       execution_history := history ++ [rec1] |}, w),
   failure_result (ex_tool_name rec) (str_of_error e)).

(** [execute_single_tool]; [**parameters] cannot carry a key named like
    the positional argument of [execute_tool]. *)
Definition execute_single_tool (reg : Registry) (s : Executor * W) (aid : Z)
    (tool_name : option string) (parameters : Dict PyVal)
    : (Executor * W) * ToolResult :=
  let '(ex, w) := s in
  let eid :=
    pretty aid +:+ "_" +:+ show_name tool_name +:+ "_" +:+ pretty (clock w) in
  let rec :=
    {| execution_id := eid; agent_id := aid; ex_tool_name := tool_name;
       ex_parameters := parameters; started_at := clock w;
       ex_status := "running"; ex_completed_at := None; ex_error := None |} in
  let active := <[eid := rec]> (active_executions ex) in
  let history := execution_history ex in
  match create_agent_execution aid ("execute_tool_" +:+ show_name tool_name) w with
  | (w1, Raise e) => on_exception active history rec e w1
  | (w1, Ok db_id) =>
      let called :=
        match dict_get parameters "tool_name" with
        | Some _ =>
            (w1, Raise (OtherError
                          "execute_tool() got multiple values for argument 'tool_name'"))
        | None => execute_tool reg tool_name parameters w1
        end in
      match called with
      | (w2, Raise e) => on_exception active history rec e w2
      | (w2, Ok res) =>
          let status := if success res then "completed" else "failed" in
          let rec1 := finish rec status None (clock w2) in
          match update_agent_execution db_id status w2 with
          | (w3, Raise e) => on_exception active history rec1 e w3
          | (w3, Ok _) =>
              (({| active_executions := delete eid active;
                   execution_history := history ++ [rec1] |}, w3), res)
          end
      end
  end.

(** *** Sequential workflows *)

Definition with_step (r : ToolResult) (idx total : nat) : ToolResult :=
  {| success := success r; tool_name := tool_name r; result := result r;
     error := error r; step := Some idx;
     workflow_position := Some (pretty (S idx) +:+ "/" +:+ pretty total);
     parallel_index := parallel_index r |}.

(** Whether the step is skipped: [condition and not _evaluate_condition(..)]. *)
Definition skips (st : WorkflowStep) (context : Dict PyVal) : bool :=
  match condition st with
  | None => false
  | Some c =>
      negb (String.eqb c "") && negb (truthy (_evaluate_condition c context))
  end.

(** The [for step_index, step in enumerate(workflow)] loop, from position
    [step_index] on; [total] is [len(workflow)]. *)
Fixpoint workflow_loop (reg : Registry) (aid : Z) (total : nat)
    (steps : list WorkflowStep) (step_index : nat) (s : Executor * W)
    (workflow_context : Dict PyVal) (results : list ChainEntry)
    : (Executor * W) * list ChainEntry :=
  match steps with
  | [] => (s, results)
  | st :: rest =>
      if skips st workflow_context then
        workflow_loop reg aid total rest (S step_index) s workflow_context
          (results ++ [Skipped step_index (tool st) "condition_not_met"])
      else
        let resolved_parameters :=
          _resolve_context_variables (step_parameters st) workflow_context in
        let '(s1, res0) :=
          execute_single_tool reg s aid (tool st) resolved_parameters in
        let res := with_step res0 step_index total in
        let results1 := results ++ [Executed res] in
        let context1 :=
          if success res then
            dict_set
              (dict_set workflow_context
                 ("step_" +:+ pretty step_index +:+ "_result") (result res))
              (show_name (tool st) +:+ "_result") (result res)
          else workflow_context in
        if negb (success res) && negb (continue_on_error st) then
          (s1, results1)
        else
          let s2 :=
            if (0 <? delay_seconds st)%Z
            then (fst s1, sleep (delay_seconds st) (snd s1))
            else s1 in
          workflow_loop reg aid total rest (S step_index) s2 context1 results1
  end.

(** [execute_tool_workflow] *)
Definition execute_tool_workflow (reg : Registry) (s : Executor * W) (aid : Z)
    (workflow : list WorkflowStep) : (Executor * W) * list ChainEntry :=
  workflow_loop reg aid (length workflow) workflow 0 s [] [].

(** *** Parallel batches *)





End WithEnv.

End ToolExecutor.

(* ===================================================================== *)
(** ** The agents table (services/database_service.py)                    *)
(* ===================================================================== *)

Module AgentStore.

(** A row of the [agents] table; [task_id] is declared [nullable=False]. *)
Record AgentRow : Type := mkAgentRow {
  row_id : Z;
  row_task_id : Z;
  row_name : string;
  row_agent_type : string;
  row_role : string;
  row_capabilities : option (list string);
  row_prompt_template : option string;
  row_status : string
}.

(** The [agents] table and the task log. *)
Record Store : Type := mkStore {
  agents : list AgentRow;
  task_logs : list (Z * string * string)
}.

(** The key an autoincrement column gives to the next row. *)
Definition fresh_id (rows : list AgentRow) : Z :=
  (1 + fold_right Z.max 0 (map row_id rows))%Z.

(** [create_agent]; the column default of [status] is ["active"]. *)
Definition create_agent (st : Store) (task_id : Z) (name agent_type role : string)
    (capabilities : option (list string)) (prompt_template : option string)
    : Store * AgentRow :=
  let agent :=
    {| row_id := fresh_id (agents st); row_task_id := task_id;
       row_name := name; row_agent_type := agent_type; row_role := role;
       row_capabilities := capabilities;
       row_prompt_template := prompt_template; row_status := "active" |} in
  ({| agents := agents st ++ [agent]; task_logs := task_logs st |}, agent).

(** [get_task_agents]: [select(Agent).where(Agent.task_id == task_id)].
    Compared with [None] the column test is [task_id IS NULL], which no
    row of a NOT NULL column passes. *)
Definition get_task_agents (st : Store) (task_id : option Z) : list AgentRow :=
  List.filter
    (fun a =>
       match task_id with
       | Some t => (row_task_id a =? t)%Z
       | None => false
       end)
    (agents st).

(** [update_agent_status]: by primary key, nothing if the row is absent. *)
Definition update_agent_status (st : Store) (agent_id : Z) (status : string) : Store :=
  {| agents :=
       map (fun a =>
              if (row_id a =? agent_id)%Z then
                {| row_id := row_id a; row_task_id := row_task_id a;
                   row_name := row_name a; row_agent_type := row_agent_type a;
                   row_role := row_role a;
                   row_capabilities := row_capabilities a;
                   row_prompt_template := row_prompt_template a;
                   row_status := status |}
              else a)
           (agents st);
     task_logs := task_logs st |}.


End AgentStore.

(* ===================================================================== *)
(** ** The reasoning service, as the agents call it                       *)
(* ===================================================================== *)

Module Reasoning.

(** The plan [execute_agent_reasoning] returns. *)
Record ReasoningResult : Type := mkReasoning {
  reasoning : string;
  planned_actions : list string;
  tools_needed : list string;
  confidence_level : string;
  next_steps : list string
}.

(** An entry of [analysis["suggested_agents"]]. *)
Record AgentSpec : Type := mkAgentSpec {
  spec_type : option string;
  spec_name : option string;
  spec_role : option string
}.

(** The definition [generate_dynamic_agent] returns; every key is read
    with [.get] and may be missing. *)
Record AgentDefinition : Type := mkAgentDefinition {
  def_name : option string;
  def_role : option string;
  def_capabilities : option (list string);
  def_system_prompt : option string;
  def_preferred_tools : option (list string);
  def_specialization : option string
}.

(** The two calls of services/groq_service.py the agents make; both catch
    their own failures and return a fallback, so both are total. *)
Class Service (W : Type) : Type := {
  execute_agent_reasoning :
    string -> string -> Dict PyVal -> list string -> W -> W * ReasoningResult;
  generate_dynamic_agent : AgentSpec -> string -> W -> W * AgentDefinition
}.

End Reasoning.

(* ===================================================================== *)
(** ** core/agent_factory.py                                              *)
(* ===================================================================== *)

Module AgentFactory.

Import ToolRegistry ToolExecutor AgentStore Reasoning.

Record Template : Type := mkTemplate {
  t_role : string;
  t_capabilities : list string;
  t_system_prompt : string;
  t_preferred_tools : list string
}.

Definition default_agent_templates : Dict Template :=
  [ ("SummarizerAgent",
     {| t_role := "Text summarization and key point extraction specialist";
        t_capabilities := ["text_analysis"; "summarization"; "key_extraction"];
        t_system_prompt := "You are a SummarizerAgent specialized in analyzing and summarizing text content.
Your role is to:
1. Extract key information from long texts
2. Create concise, accurate summaries
3. Identify main themes and important details
4. Present information in a structured format

Always provide clear, well-organized summaries that capture the essence of the original content.";
        t_preferred_tools := ["text_summarizer"; "json_parser"] |});
    ("SearchAgent",
     {| t_role := "Web search and information gathering specialist";
        t_capabilities := ["web_search"; "information_gathering"; "fact_checking"];
        t_system_prompt := "You are a SearchAgent specialized in finding and gathering information from the web.
Your role is to:
1. Conduct effective web searches using relevant keywords
2. Gather comprehensive information from multiple sources
3. Verify information accuracy when possible
4. Organize findings in a structured format

Always provide reliable, well-sourced information with proper attribution.";
        t_preferred_tools := ["web_search"; "http_request"; "json_parser"] |});
    ("CodingAgent",
     {| t_role := "Code generation, review, and debugging specialist";
        t_capabilities :=
          ["code_generation"; "code_review"; "debugging"; "syntax_checking"];
        t_system_prompt := "You are a CodingAgent specialized in software development tasks.
Your role is to:
1. Generate clean, efficient, and well-documented code
2. Review code for bugs, security issues, and best practices
3. Debug existing code and suggest improvements
4. Provide explanations for code functionality

Always follow coding best practices and provide clear explanations.";
        t_preferred_tools := ["file_reader"; "json_parser"; "http_request"] |});
    ("SchedulerAgent",
     {| t_role := "Task scheduling and time management specialist";
        t_capabilities := ["scheduling"; "time_management"; "calendar_operations"];
        t_system_prompt := "You are a SchedulerAgent specialized in organizing and managing schedules.
Your role is to:
1. Create and manage schedules and timelines
2. Optimize time allocation for tasks
3. Handle calendar operations and reminders
4. Provide time management recommendations

Always consider time zones, priorities, and dependencies when scheduling.";
        t_preferred_tools := ["datetime_tool"; "calculator"; "json_parser"] |}) ].

(** The dictionary the two [create_*] methods return; ["specialization"]
    is a key of dynamic agents only. *)
Record AgentRecord : Type := mkAgentRecord {
  id : Z;
  name : string;
  type : string;
  role : string;
  capabilities : list string;
  system_prompt : string;
  preferred_tools : list string;
  specialization : option string;
  priority : string
}.

(** [create_default_agent] *)
Definition create_default_agent (st : Store) (task_id : Z)
    (agent_type role : string) : Store * AgentRecord :=
  let template :=
    match dict_get default_agent_templates agent_type with
    | Some t => t
    | None =>
        {| t_role := role;
           t_capabilities := ["general_reasoning"];
           t_system_prompt := "You are a " +:+ agent_type +:+ " agent. " +:+ role;
           t_preferred_tools := ["web_search"; "calculator"] |}
    end in
  let '(st1, agent) :=
    create_agent st task_id agent_type "default" (t_role template)
      (Some (t_capabilities template)) (Some (t_system_prompt template)) in
  (st1,
   {| id := row_id agent;
      name := agent_type;
      type := "default";
      role := t_role template;
      capabilities := t_capabilities template;
      system_prompt := t_system_prompt template;
      preferred_tools := t_preferred_tools template;
      specialization := None;
      priority := "medium" |}).

(** [create_dynamic_agent] *)
Definition create_dynamic_agent (st : Store) (task_id : Z)
    (agent_definition : AgentDefinition) : Store * AgentRecord :=
  let name0 := default "DynamicAgent" (def_name agent_definition) in
  let role0 := default "Specialized task agent" (def_role agent_definition) in
  let capabilities0 := default [] (def_capabilities agent_definition) in
  let system_prompt0 := default "" (def_system_prompt agent_definition) in
  let '(st1, agent) :=
    create_agent st task_id name0 "dynamic" role0
      (Some capabilities0) (Some system_prompt0) in
  (st1,
   {| id := row_id agent;
      name := name0;
      type := "dynamic";
      role := role0;
      capabilities := capabilities0;
      system_prompt := system_prompt0;
      preferred_tools := default [] (def_preferred_tools agent_definition);
      specialization :=
        Some (default "General" (def_specialization agent_definition));
      priority := "high" |}).

(** The dictionary [execute_agent] returns. *)
Record AgentResult : Type := mkAgentResult {
  ar_success : bool;
  ar_agent_id : Z;
  ar_agent_name : string;
  ar_reasoning : string;
  ar_tools_used : list (option string);
  ar_tool_results : list ToolResult;
  ar_confidence_level : string;
  ar_output : option string;
  ar_error : option string
}.

(** The rule-based helpers of the factory: the value of the first only
    feeds the tool call, the second only the ["output"] text. *)
Class Helpers : Type := {
  _determine_tool_parameters :
    string -> string -> Dict PyVal -> ReasoningResult -> Result (Dict PyVal);
  _synthesize_agent_output : ReasoningResult -> list ToolResult -> string
}.

Section WithEnv.
Context {W : Type} `{Env W} `{Service W} `{Helpers}.

(** [tool_name in [tool.name for tool in tool_registry.tools.values()]] *)
Definition known_tool (reg : Registry) (tool_name : string) : bool :=
  existsb (fun kv => String.eqb (ToolRegistry.name (snd kv)) tool_name)
          (map_to_list (tools reg)).

(** The [for tool_name in tools_needed] loop of [execute_agent]. *)
Fixpoint run_tools (reg : Registry) (aid : Z) (task_input : string)
    (context : Dict PyVal) (plan : ReasoningResult) (needed : list string)
    (s : Executor * W) (tool_results : list ToolResult)
    : (Executor * W) * Result (list ToolResult) :=
  match needed with
  | [] => (s, Ok tool_results)
  | tool_name :: rest =>
      if known_tool reg tool_name then
        match _determine_tool_parameters tool_name task_input context plan with
        | Raise e => (s, Raise e)
        | Ok tool_params =>
            let '(s1, tool_result) :=
              execute_single_tool reg s aid (Some tool_name) tool_params in
            run_tools reg aid task_input context plan rest s1
              (tool_results ++ [tool_result])
        end
      else run_tools reg aid task_input context plan rest s tool_results
  end.

(** [execute_agent].  In the handler [agent] is always a local name, so
    [agent.name] is evaluated; on [None] it raises AttributeError, which
    leaves the method. *)
Definition execute_agent (reg : Registry) (st : Store) (s : Executor * W)
    (agent_id : Z) (task_input : string) (context : Dict PyVal)
    : (Store * (Executor * W)) * Result AgentResult :=
  let agents := get_task_agents st None in
  match find (fun a => (row_id a =? agent_id)%Z) agents with
  | None =>
      ((update_agent_status st agent_id "failed", s),
       Raise (OtherError "'NoneType' object has no attribute 'name'"))
  | Some agent =>
      let st1 := update_agent_status st agent_id "active" in
      let capabilities := default [] (row_capabilities agent) in
      let preferred_tools := get_tools_for_capabilities reg capabilities in
      let '(w1, reasoning_result) :=
        execute_agent_reasoning (default "" (row_prompt_template agent))
          task_input context preferred_tools (snd s) in
      match run_tools reg agent_id task_input context reasoning_result
              (tools_needed reasoning_result) (fst s, w1) [] with
      | (s2, Ok tool_results) =>
          ((update_agent_status st1 agent_id "completed", s2),
           Ok {| ar_success := true;
                 ar_agent_id := agent_id;
                 ar_agent_name := row_name agent;
                 ar_reasoning := reasoning reasoning_result;
                 ar_tools_used :=
                   map tool_name (List.filter success tool_results);
                 ar_tool_results := tool_results;
                 ar_confidence_level := confidence_level reasoning_result;
                 ar_output :=
                   Some (_synthesize_agent_output reasoning_result tool_results);
                 ar_error := None |})
      | (s2, Raise e) =>
          ((update_agent_status st1 agent_id "failed", s2),
           Ok {| ar_success := false;
                 ar_agent_id := agent_id;
                 ar_agent_name := row_name agent;
                 ar_reasoning := "Agent execution failed due to error";
                 ar_tools_used := [];
                 ar_tool_results := [];
                 ar_confidence_level := "low";
                 ar_output := None;
                 ar_error := Some (str_of_error e) |})
      end
  end.

End WithEnv.

End AgentFactory.

(* ===================================================================== *)
(** ** agents/dynamic_agent.py (with agents/base_agent.py)                *)
(* ===================================================================== *)

Module DynamicAgent.

Import ToolRegistry ToolExecutor Reasoning.

(** An entry of [BaseAgent.execution_history]. *)
Record LogEntry : Type := mkLogEntry {
  log_timestamp : Z;
  log_task_input : string;
  log_success : bool;
  log_tools_used : list (option string);
  log_confidence : string
}.

(** The attributes of a [DynamicAgent] object. *)
Record Agent : Type := mkAgent {
  agent_id : Z;
  name : string;
  role : string;
  capabilities : list string;
  status : string;
  execution_history : list LogEntry;
  system_prompt : string;
  specialization : string;
  preferred_tools : list string
}.

(** [DynamicAgent.__init__] *)
Definition init (agent_id : Z) (agent_definition : AgentDefinition) : Agent :=
  {| agent_id := agent_id;
     name := default "DynamicAgent" (def_name agent_definition);
     role := default "Specialized task agent" (def_role agent_definition);
     capabilities :=
       default ["general_reasoning"] (def_capabilities agent_definition);
     status := "initialized";
     execution_history := [];
     system_prompt := default "" (def_system_prompt agent_definition);
     specialization := default "General" (def_specialization agent_definition);
     preferred_tools := default [] (def_preferred_tools agent_definition) |}.

(** The dictionary [execute] returns. *)
Record AgentResult : Type := mkAgentResult {
  ar_success : bool;
  ar_agent_name : string;
  ar_tools_used : list (option string);
  ar_tool_results : list ToolResult;
  ar_confidence_level : string;
  ar_output : option string;
  ar_error : option string
}.

Definition set_status (a : Agent) (status : string) : Agent :=
  {| agent_id := agent_id a; name := name a; role := role a;
     capabilities := capabilities a; status := status;
     execution_history := execution_history a;
     system_prompt := system_prompt a; specialization := specialization a;
     preferred_tools := preferred_tools a |}.

(** [s[:n]] *)
Fixpoint str_take (n : nat) (s : string) : string :=
  match n, s with
  | S n', String c s' => String c (str_take n' s')
  | _, _ => EmptyString
  end.

(** [l[-n:]] *)
Definition last_n {A : Type} (n : nat) (l : list A) : list A :=
  skipn (length l - n) l.

(** [BaseAgent.log_execution]: the ten most recent entries are kept. *)
Definition log_execution (a : Agent) (now : Z) (task_input : string)
    (res : AgentResult) : Agent :=
  let execution_record :=
    {| log_timestamp := now;
       log_task_input :=
         if Nat.ltb 100 (String.length task_input)
         then str_take 100 task_input +:+ "..."
         else task_input;
       log_success := ar_success res;
       log_tools_used := ar_tools_used res;
       log_confidence := ar_confidence_level res |} in
  let history := execution_history a ++ [execution_record] in
  {| agent_id := agent_id a; name := name a; role := role a;
     capabilities := capabilities a; status := status a;
     execution_history :=
       if Nat.ltb 10 (length history) then last_n 10 history else history;
     system_prompt := system_prompt a; specialization := specialization a;
     preferred_tools := preferred_tools a |}.

(** The helpers of the agent whose values only feed the tool call, the
    ["success"] flag and the ["output"] text. *)
Class Helpers : Type := {
  _determine_tool_parameters :
    string -> string -> Dict PyVal -> ReasoningResult -> Result (Dict PyVal);
  _validate_results :
    ReasoningResult -> list ToolResult -> string -> Result bool;
  _synthesize_output : Agent -> ReasoningResult -> list ToolResult -> bool -> string
}.

Section WithEnv.
Context {W : Type} `{Env W} `{Service W} `{Helpers}.

(** The [for tool_name in tools_needed] loop of [execute]. *)
Fixpoint run_tools (reg : Registry) (a : Agent) (task_input : string)
    (context : Dict PyVal) (plan : ReasoningResult) (needed : list string)
    (s : Executor * W) (tool_results : list ToolResult)
    : (Executor * W) * Result (list ToolResult) :=
  match needed with
  | [] => (s, Ok tool_results)
  | tool_name :: rest =>
      if existsb (String.eqb tool_name) (preferred_tools a) then
        match _determine_tool_parameters tool_name task_input context plan with
        | Raise e => (s, Raise e)
        | Ok tool_params =>
            let '(s1, tool_result) :=
              execute_single_tool reg s (agent_id a) (Some tool_name) tool_params in
            run_tools reg a task_input context plan rest s1
              (tool_results ++ [tool_result])
        end
      else run_tools reg a task_input context plan rest s tool_results
  end.

Definition failed (a : Agent) (e : Error) : AgentResult :=
  {| ar_success := false; ar_agent_name := name a; ar_tools_used := [];
     ar_tool_results := []; ar_confidence_level := "low";
     ar_output := None; ar_error := Some (str_of_error e) |}.

(** [execute] *)
Definition execute (reg : Registry) (a : Agent) (s : Executor * W)
    (task_input : string) (context : Dict PyVal)
    : (Agent * (Executor * W)) * AgentResult :=
  let a1 := set_status a "active" in
  let '(w1, reasoning_result) :=
    execute_agent_reasoning (system_prompt a1) task_input context
      (preferred_tools a1) (snd s) in
  let on_error (s' : Executor * W) (e : Error) :=
    let res := failed a1 e in
    ((log_execution (set_status a1 "failed") (clock (snd s')) task_input res, s'),
     res) in
  match run_tools reg a1 task_input context reasoning_result
          (tools_needed reasoning_result) (fst s, w1) [] with
  | (s2, Raise e) => on_error s2 e
  | (s2, Ok tool_results) =>
      match _validate_results reasoning_result tool_results task_input with
      | Raise e => on_error s2 e
      | Ok valid =>
          let res :=
            {| ar_success := valid;
               ar_agent_name := name a1;
               ar_tools_used :=
                 map tool_name (List.filter success tool_results);
               ar_tool_results := tool_results;
               ar_confidence_level := confidence_level reasoning_result;
               ar_output :=
                 Some (_synthesize_output a1 reasoning_result tool_results valid);
               ar_error := None |} in
          ((log_execution (set_status a1 "completed") (clock (snd s2))
              task_input res, s2), res)
      end
  end.

End WithEnv.

End DynamicAgent.

(* ===================================================================== *)
(** ** core/orchestrator.py: creating and scheduling the agents           *)
(* ===================================================================== *)

Module Orchestrator.

Import AgentStore Reasoning AgentFactory.

Section WithService.
Context {W : Type} `{Service W}.



End WithService.

(** How [_execute_agents] runs the agents: one awaited on its own, or a
    batch handed to [asyncio.gather]. *)
Inductive Phase : Type :=
| Alone (agent : AgentRecord)
| Together (batch : list AgentRecord).

Definition is_high (a : AgentRecord) : bool := String.eqb (priority a) "high".

(** [_execute_agents]: the phases in the order they are awaited; a phase
    starts when the one before it has returned. *)
Definition _execute_agents (agents : list AgentRecord) : list Phase :=
  let high_priority_agents := List.filter is_high agents in
  let other_agents := List.filter (fun a => negb (is_high a)) agents in
  map Alone high_priority_agents ++
  match other_agents with
  | [] => []
  | [a] => [Alone a]
  | _ => [Together other_agents]
  end.

(** The agents a phase runs. *)
Definition members (p : Phase) : list AgentRecord :=
  match p with
  | Alone a => [a]
  | Together batch => batch
  end.

End Orchestrator.

(* ===================================================================== *)
(** ** core/task_manager.py: pausing, resuming and cleaning up            *)
(* ===================================================================== *)

Module TaskControl.

Import TaskManager.

(** [db_service.update_task_status], on the columns of [Task] modelled
    here: the row with that primary key gets the new status; nothing
    happens when there is no such row. *)
Definition update_task_status (db : list Task) (tid : Z) (new_status : string)
    : list Task :=
  map (fun t =>
         if (id t =? tid)%Z then
           {| id := id t; t_status := new_status; priority := priority t;
              t_created_at := t_created_at t |}
         else t) db.

Definition set_tasks (st : State) (db : list Task) : State :=
  {| task_dependencies := task_dependencies st;
     task_workflows := task_workflows st;
     task_timeouts := task_timeouts st;
     max_concurrent_tasks := max_concurrent_tasks st;
     memory := memory st;
     tasks := db |}.

Definition with_status (w : Workflow) (new_status : string) : Workflow :=
  {| task_id := task_id w; steps := steps w; current_step := current_step w;
     step_results := step_results w; status := new_status;
     created_at := created_at w; dependencies := dependencies w;
     timeout_minutes := timeout_minutes w; completed_at := completed_at w |}.

(** The keys ["paused_at"] and ["resumed_at"] that [pause_task] and
    [resume_task] add to a workflow dictionary, kept per task. *)
Record Marks : Type := mkMarks {
  paused_at : gmap Z Z;
  resumed_at : gmap Z Z
}.

Definition no_marks : Marks := {| paused_at := ∅; resumed_at := ∅ |}.

(** The dictionary [pause_task] and [resume_task] return. *)
Inductive Answer : Type :=
| Changed (task_id : Z) (status : string)
| Refused (error : string).

(** [pause_task] *)
Definition pause_task (s : State * Marks) (tid : Z) (now : Z)
    : (State * Marks) * Answer :=
  let '(st, marks) := s in
  match task_workflows st !! tid with
  | Some workflow =>
      if String.eqb (status workflow) (value IN_PROGRESS) then
        let st1 := set_workflow st tid (with_status workflow (value PAUSED)) in
        let marks1 :=
          {| paused_at := <[tid := now]> (paused_at marks);
             resumed_at := resumed_at marks |} in
        let st2 :=
          set_tasks st1 (update_task_status (tasks st1) tid (value PAUSED)) in
        ((st2, marks1), Changed tid "paused")
      else (s, Refused ("Cannot pause task " +:+ pretty tid))
  | None => (s, Refused ("Cannot pause task " +:+ pretty tid))
  end.

(** [resume_task] *)
Definition resume_task (s : State * Marks) (tid : Z) (now : Z)
    : (State * Marks) * Answer :=
  let '(st, marks) := s in
  match task_workflows st !! tid with
  | Some workflow =>
      if String.eqb (status workflow) (value PAUSED) then
        let st1 :=
          set_workflow st tid (with_status workflow (value IN_PROGRESS)) in
        let marks1 :=
          {| paused_at := paused_at marks;
             resumed_at := <[tid := now]> (resumed_at marks) |} in
        let st2 :=
          set_tasks st1
            (update_task_status (tasks st1) tid (value IN_PROGRESS)) in
        ((st2, marks1), Changed tid "resumed")
      else (s, Refused ("Cannot resume task " +:+ pretty tid))
  | None => (s, Refused ("Cannot resume task " +:+ pretty tid))
  end.

(** The test of the first loop of [cleanup_completed_workflows];
    a workflow without ["completed_at"] counts as completed now. *)
Definition expired (now cutoff : Z) (w : Workflow) : bool :=
  String.eqb (status w) (value COMPLETED) &&
  (default now (completed_at w) <? cutoff)%Z.

(** The body of the second loop: the task leaves the three dictionaries. *)
Definition forget (st : State) (tid : Z) : State :=
  {| task_dependencies := delete tid (task_dependencies st);
     task_workflows := delete tid (task_workflows st);
     task_timeouts := delete tid (task_timeouts st);
     max_concurrent_tasks := max_concurrent_tasks st;
     memory := memory st;
     tasks := tasks st |}.

(** [cleanup_completed_workflows]; the count is the value under
    ["cleaned_workflows"]. *)
Definition cleanup_completed_workflows (st : State) (older_than_hours : Z)
    (now : Z) : State * nat :=
  let cutoff_time := (now - older_than_hours * 3600)%Z in
  let workflows_to_remove :=
    map fst (List.filter (fun kv => expired now cutoff_time (snd kv))
               (map_to_list (task_workflows st))) in
  (fold_left forget workflows_to_remove st, length workflows_to_remove).

(** The calls a client can make on the manager. *)
Inductive Call : Type :=
| CreateWorkflow (tid : Z) (wsteps : list (Dict PyVal)) (deps : list Z)
                 (timeout : Z) (now : Z)
| ExecuteStep (tid : Z) (idx : Z) (result : Dict PyVal) (now : Z)
| Pause (tid : Z) (now : Z)
| Resume (tid : Z) (now : Z)
| Cleanup (older_than_hours : Z) (now : Z).

Section WithMemoryService.

Variable store_memory : WorkflowSummary -> bool.

Definition call (s : State * Marks) (c : Call) : State * Marks :=
  match c with
  | CreateWorkflow tid wsteps deps timeout now =>
      (fst (create_task_workflow (fst s) tid wsteps deps timeout now), snd s)
  | ExecuteStep tid idx result now =>
      (fst (execute_workflow_step store_memory (fst s) tid idx result now), snd s)
  | Pause tid now => fst (pause_task s tid now)
  | Resume tid now => fst (resume_task s tid now)
  | Cleanup hours now => (fst (cleanup_completed_workflows (fst s) hours now), snd s)
  end.

(** The manager after a sequence of calls. *)
Definition calls (s : State * Marks) (cs : list Call) : State * Marks :=
  fold_left call cs s.

End WithMemoryService.

End TaskControl.

(* ===================================================================== *)
(** ** tools/tool_registry.py: chains of tools                            *)
(* ===================================================================== *)

Module ToolChain.

Import ToolRegistry.


(** The inner loop over [parameters.items()]: a top-level string
    placeholder whose key is in the context is overwritten in place. *)
Definition substitute (context : Dict PyVal) (parameters : Dict PyVal)
    : Dict PyVal :=
  fold_left
    (fun params kv =>
       match snd kv with
       | VStr s =>
           if startswith "$context." s then
             match dict_get context (str_drop 9 s) with
             | Some v => dict_set params (fst kv) v
             | None => params
             end
           else params
       | _ => params
       end)
    parameters parameters.

Section WithEnv.
Context {W : Type} `{Env W}.




End WithEnv.

End ToolChain.

(* ===================================================================== *)
(** ** tools/tool_executor.py: status and statistics                      *)
(* ===================================================================== *)

Module ToolStats.

Import ToolRegistry ToolExecutor.

(** A dictionary of counters keyed by tool name; the name of a record
    may be [None], which is a key like any other. *)
Definition Counter : Type := list (option string * nat).

Definition name_eqb (a b : option string) : bool :=
  match a, b with
  | Some x, Some y => String.eqb x y
  | None, None => true
  | _, _ => false
  end.

(** [d.get(k, 0)] *)
Fixpoint count_of (d : Counter) (k : option string) : nat :=
  match d with
  | [] => 0
  | (k', n) :: d' => if name_eqb k' k then n else count_of d' k
  end.

(** [d[k] = n] *)
Fixpoint counter_set (d : Counter) (k : option string) (n : nat) : Counter :=
  match d with
  | [] => [(k, n)]
  | (k', n') :: d' =>
      if name_eqb k' k then (k', n) :: d' else (k', n') :: counter_set d' k n
  end.

(** [d[k] = d.get(k, 0) + 1] *)
Definition bump (d : Counter) (k : option string) : Counter :=
  counter_set d k (count_of d k + 1).

(** The dictionary [get_tool_usage_stats] returns.  A success rate is the
    quotient of two integers, computed in floating point; it is kept here
    as the pair (successes, uses) that is divided. *)
Record UsageStats : Type := mkUsageStats {
  tool_usage_counts : Counter;
  success_counts : Counter;
  error_counts : Counter;
  success_rates : list (option string * (nat * nat))
}.

(** The body of the loop over [execution_history]. *)
Definition tally (acc : Counter * Counter * Counter) (execution : ExecutionRecord)
    : Counter * Counter * Counter :=
  let '(tool_counts, succ, err) := acc in
  let tool_name := ex_tool_name execution in
  let tool_counts1 := bump tool_counts tool_name in
  if String.eqb (ex_status execution) "completed" then
    (tool_counts1, bump succ tool_name, err)
  else if String.eqb (ex_status execution) "failed"
          || String.eqb (ex_status execution) "error" then
    (tool_counts1, succ, bump err tool_name)
  else (tool_counts1, succ, err).

(** [get_tool_usage_stats] *)
Definition get_tool_usage_stats (ex : Executor) : UsageStats :=
  let '(tool_counts, succ, err) :=
    fold_left tally (execution_history ex) ([], [], []) in
  {| tool_usage_counts := tool_counts;
     success_counts := succ;
     error_counts := err;
     success_rates :=
       map (fun kv => (fst kv, (count_of succ (fst kv), snd kv))) tool_counts |}.

(** The dictionary [get_execution_status] returns. *)
Record ExecutionStatus : Type := mkExecutionStatus {
  active_count : nat;
  active_details : list ExecutionRecord;
  recent_executions : nat;
  recent_details : list ExecutionRecord;
  total_executions : nat
}.

(** [if agent_id:] is false for [None] and for 0. *)
Definition filters (agent_id : option Z) : option Z :=
  match agent_id with
  | Some a => if (a =? 0)%Z then None else Some a
  | None => None
  end.

Definition of_agent (agent_id : option Z) (l : list ExecutionRecord)
    : list ExecutionRecord :=
  match filters agent_id with
  | Some a => List.filter (fun e => (ToolExecutor.agent_id e =? a)%Z) l
  | None => l
  end.

(** [get_execution_status]; the active records come in the order of the
    map, which here is not the order of insertion. *)
Definition get_execution_status (ex : Executor) (agent_id : option Z)
    : ExecutionStatus :=
  let active := of_agent agent_id (map snd (map_to_list (active_executions ex))) in
  let history := execution_history ex in
  let recent_history := of_agent agent_id (skipn (length history - 20) history) in
  {| active_count := length active;
     active_details := active;
     recent_executions := length recent_history;
     recent_details := recent_history;
     total_executions := length history |}.

End ToolStats.

(* ===================================================================== *)
(** ** tools/default_tools.py: the check of the calculator                *)
(* ===================================================================== *)

Module Calculator.

Definition allowed_chars : string := "0123456789+-*/().% ".

Definition allowed_functions : list string :=
  ["sin"; "cos"; "tan"; "log"; "sqrt"; "abs"; "pow"].

(** [c in allowed_chars] *)
Definition allowed_char (c : ascii) : bool :=
  existsb (Ascii.eqb c) (list_ascii_of_string allowed_chars).

(** The test of the ["Basic validation"]: [all(c in allowed_chars or
    any(func in expression for func in allowed_functions) for c in
    expression)]. *)
Definition passes_validation (expression : string) : bool :=
  forallb
    (fun c =>
       allowed_char c ||
       existsb (fun func => contains func expression) allowed_functions)
    (list_ascii_of_string expression).

(** The text handed to [eval]: every function name gets the prefix
    [math.], one name after the other. *)
Definition safe_expression (expression : string) : string :=
  fold_left (fun e func => replace func ("math." +:+ func) e)
            allowed_functions expression.

End Calculator.

(* ===================================================================== *)
(** ** core/agent_factory.py and core/orchestrator.py: further methods    *)
(* ===================================================================== *)

Module AgentTypes.

Import AgentFactory.

(** [get_agent_capabilities] *)
Definition get_agent_capabilities (agent_type : string) : list string :=
  match dict_get default_agent_templates agent_type with
  | Some template => t_capabilities template
  | None => ["general_reasoning"]
  end.

End AgentTypes.

Module Cancellation.

Import TaskManager TaskControl AgentStore.





End Cancellation.

(* ===================================================================== *)
(** * Auxiliary definitions and concrete inputs                           *)
(* ===================================================================== *)

Module TaskManagerCases.

Import TaskManager.

(** The step indices 0, 1, ..., n-1. *)
Definition in_order (n : nat) : list Z := map Z.of_nat (seq 0 n).

(** A memory service that stores every summary. *)
Definition always_stored : WorkflowSummary -> bool := fun _ => true.

Definition ok_result : Dict PyVal := [("success", VBool true)].

(** A manager holding one workflow of two steps for task 1. *)
Definition two_steps : State :=
  fst (create_task_workflow (init []) 1
         [[("name", VStr "fetch")]; [("name", VStr "report")]] [] 30 0).

(** A manager holding one workflow of three steps for task 7. *)
Definition three_steps : State :=
  fst (create_task_workflow (init []) 7 [[]; []; []] [] 30 0).

Definition status_of (st : State) (tid : Z) : option string :=
  status <$> (task_workflows st !! tid).
Definition current_step_of (st : State) (tid : Z) : option Z :=
  current_step <$> (task_workflows st !! tid).
Definition results_of (st : State) (tid : Z) : option nat :=
  (fun w => length (step_results w)) <$> (task_workflows st !! tid).



(** [u] is at least as recent as [t]. *)
Definition not_older (u t : Task) : Prop := (t_created_at t <= t_created_at u)%Z.


(** A hundred and one pending tasks, task [k] created at time [k]. *)
Definition hundred_and_one_pending : State :=
  init (map (fun k => {| id := Z.of_nat k; t_status := "pending";
                         priority := "medium";
                         t_created_at := Z.of_nat k |}) (seq 1 101)).

End TaskManagerCases.

Module ToolRegistryCases.

Import ToolRegistry.

(** The category list a registration extends. *)
Definition target_category (reg : Registry) (category : string) : string :=
  match tool_categories reg !! category with
  | Some _ => category
  | None => "general"
  end.

Definition calculator_v1 : Tool :=
  {| name := "calculator"; description := "Perform mathematical calculations";
     parameters := [("required", VList [VStr "expression"])] |}.

Definition calculator_v2 : Tool :=
  {| name := "calculator"; description := "Another calculator";
     parameters := [] |}.

Definition with_calculator : Registry :=
  fst (register_tool init calculator_v1 "computation").

End ToolRegistryCases.

Module ToolExecutorCases.

Import ToolRegistry ToolExecutor.

(** The step an entry of a workflow result list stands for. *)
Definition entry_step (e : ChainEntry) : option nat :=
  match e with
  | Skipped i _ _ => Some i
  | Executed r => step r
  end.

(** One binding of the resolved dictionary. *)
Definition resolve_binding (context : Dict PyVal) (kv : string * PyVal)
    : string * PyVal :=
  (fst kv, resolve_value context (snd kv)).

(** What the comprehension of [_resolve_context_variables] does to one
    element of a list value. *)
Definition resolve_item (context : Dict PyVal) (item : PyVal) : PyVal :=
  match item with
  | VDict d => VDict (_resolve_context_variables d context)
  | _ => item
  end.

(** Scalars that are not strings. *)
Definition is_plain_scalar (v : PyVal) : bool :=
  match v with
  | VNone | VBool _ | VInt _ => true
  | _ => false
  end.


(** The names of the tools whose executions were recorded. *)
Definition invoked (history : list ExecutionRecord) : list (option string) :=
  map ex_tool_name history.

(** *** A small concrete environment

    The world is the list of the tools run so far.  The tool ["parse"]
    always raises, every other tool returns a string.  The interpreter is
    a table of its answers on the few expressions used below. *)

Definition run_tool (t : Tool) (kwargs : Dict PyVal) (w : list string)
    : list string * Result PyVal :=
  if String.eqb (name t) "parse"
  then (w ++ [name t], Raise (OtherError "cannot parse"))
  else (w ++ [name t], Ok (VStr ("output of " +:+ name t))).

Definition show (v : PyVal) : string :=
  match v with
  | VNone => "None"
  | VBool true => "True"
  | VBool false => "False"
  | VInt n => pretty n
  | VStr s => s
  | VList _ => "[...]"
  | VDict _ => "{...}"
  end.

Definition interpreter (source : string) : Result PyVal :=
  if String.eqb source "True" then Ok (VBool true)
  else if String.eqb source "False" then Ok (VBool false)
  else if String.eqb source "1 == 1" then Ok (VBool true)
  else if String.eqb source "(2).bit_length() < 3" then Ok (VBool true)
  else if String.eqb source "[1, 2] + [3]" then Ok (VList [VInt 1; VInt 2; VInt 3])
  else Raise (OtherError "invalid syntax").

#[export] Instance small_env : Env (list string) :=
  {| tool_execute := run_tool;
     create_agent_execution := fun _ _ w => (w, Ok 1%Z);
     update_agent_execution := fun _ _ w => (w, Ok tt);
     clock := fun w => Z.of_nat (length w);
     sleep := fun _ w => w;
     py_str := show;
     py_eval := interpreter |}.

Definition plain_tool (n : string) : Tool :=
  {| name := n; description := n; parameters := [] |}.

(** A registry with the tools ["fetch"], ["parse"] and ["report"]. *)
Definition three_tools : Registry :=
  fst (register_tool
         (fst (register_tool
                 (fst (register_tool ToolRegistry.init (plain_tool "fetch") "search"))
                 (plain_tool "parse") "data_processing"))
         (plain_tool "report") "general").

Definition plain_step (n : string) : WorkflowStep :=
  {| tool := Some n; step_parameters := []; condition := None;
     continue_on_error := false; delay_seconds := 0 |}.

(** A chain of three steps whose second step fails. *)
Definition failing_chain : list WorkflowStep :=
  [plain_step "fetch"; plain_step "parse"; plain_step "report"].

Definition fresh : Executor * list string := (ToolExecutor.init, []).

(** Parameters with a placeholder that has no binding, a nested
    dictionary, a list and a number. *)
Definition sample_parameters : Dict PyVal :=
  [ ("query", VStr "$context.missing_result");
    ("source", VStr "$context.step_0_result");
    ("options", VDict [("inner", VStr "$context.step_0_result")]);
    ("items", VList [VStr "$context.step_0_result";
                     VDict [("deep", VStr "$context.step_0_result")];
                     VInt 4]);
    ("limit", VInt 5) ].

Definition sample_context : Dict PyVal := [("step_0_result", VStr "first")].

End ToolExecutorCases.

Module ParallelCases.

Import ToolRegistry ToolExecutor ToolExecutorCases.



End ParallelCases.

Module AgentCases.

Import ToolRegistry ToolExecutor ToolExecutorCases Reasoning AgentFactory Orchestrator.




(** A reasoning service whose plan names the tool ["parse"], and helpers
    that pass the task input to the tool. *)
#[export] Instance parse_planner : Service (list string) :=
  {| execute_agent_reasoning := fun _ _ _ _ w =>
       (w, {| reasoning := "parse the input"; planned_actions := ["parse"];
              tools_needed := ["parse"]; confidence_level := "high";
              next_steps := [] |});
     generate_dynamic_agent := fun spec _ w =>
       (w, {| def_name := spec_name spec; def_role := spec_role spec;
              def_capabilities := None; def_system_prompt := None;
              def_preferred_tools := None; def_specialization := None |}) |}.

#[export] Instance input_helpers : AgentFactory.Helpers :=
  {| AgentFactory._determine_tool_parameters := fun _ input _ _ =>
       Ok [("input", VStr input)];
     AgentFactory._synthesize_agent_output := fun plan _ => reasoning plan |}.

Definition parse_plan : ReasoningResult :=
  {| reasoning := "parse the input"; planned_actions := ["parse"];
     tools_needed := ["parse"]; confidence_level := "high";
     next_steps := [] |}.

End AgentCases.

Module TaskControlCases.

Import TaskManager TaskControl TaskManagerCases.

(** The status of a workflow as the manager's own calls leave it. *)
Definition pending_or_completed (w : Workflow) : Prop :=
  status w = value PENDING \/ status w = value COMPLETED.

(** Every workflow of the manager is pending or completed. *)
Definition all_pending_or_completed (s : State * Marks) : Prop :=
  forall tid w, task_workflows (fst s) !! tid = Some w -> pending_or_completed w.


(** The summary [_store_workflow_result] builds for a workflow. *)
Definition summary_of (tid : Z) (w : Workflow) (now : Z) : WorkflowSummary :=
  {| sum_task_id := tid;
     total_steps := length (steps w);
     successful_steps :=
       length (List.filter (fun r => truthy (success r)) (step_results w));
     execution_time := (now - created_at w)%Z;
     sum_step_results := step_results w |}.

(** A manager whose only workflow, for task 3, is in progress. *)
Definition running : State * Marks :=
  (set_workflow (init [ {| id := 3; t_status := "in_progress";
                           priority := "high"; t_created_at := 5 |} ]) 3
     {| task_id := 3; steps := [[]; []]; current_step := 1;
        step_results := []; status := "in_progress"; created_at := 5;
        dependencies := []; timeout_minutes := 30; completed_at := None |},
   no_marks).

(** Task 2 depends on task 1, which is in the table and pending. *)
Definition two_dependent_tasks : State :=
  fst (create_task_workflow
         (init [ {| id := 1; t_status := "pending"; priority := "medium";
                    t_created_at := 1 |};
                 {| id := 2; t_status := "pending"; priority := "medium";
                    t_created_at := 2 |} ])
         2 [[]] [1%Z] 30 2).

End TaskControlCases.

Module ToolChainCases.

Import ToolRegistry ToolChain ToolExecutorCases.

(** What [execute_tool_chain] makes of one parameter value. *)
Definition substituted (context : Dict PyVal) (v : PyVal) : PyVal :=
  match v with
  | VStr s =>
      if startswith "$context." s
      then default v (dict_get context (str_drop 9 s))
      else v
  | _ => v
  end.



End ToolChainCases.

Module ExecutorCases.

Import ToolRegistry ToolExecutor ToolExecutorCases.

(** A record whose execution has ended. *)
Definition final (rec : ExecutionRecord) : Prop :=
  ex_status rec = "completed" \/ ex_status rec = "failed" \/
  ex_status rec = "error".

(** The tools of the executed entries of a workflow result, in order. *)
Definition executed_tools (results : list ChainEntry) : list (option string) :=
  omap (fun e => match e with
                 | Executed r => Some (tool_name r)
                 | Skipped _ _ _ => None
                 end) results.

(** The entries of a workflow all of whose steps were skipped, for the
    steps from position [i] on. *)
Fixpoint all_skipped (i : nat) (workflow : list WorkflowStep) : list ChainEntry :=
  match workflow with
  | [] => []
  | st :: rest =>
      Skipped i (tool st) "condition_not_met" :: all_skipped (S i) rest
  end.

(** A step guarded by a condition that names a dunder attribute. *)
Definition guarded_step : WorkflowStep :=
  {| tool := Some "fetch"; step_parameters := [];
     condition := Some "().__class__ == None";
     continue_on_error := false; delay_seconds := 0 |}.

(** The chain of three steps, each continuing on error. *)
Definition tolerant_chain : list WorkflowStep :=
  map (fun n => {| tool := Some n; step_parameters := []; condition := None;
                   continue_on_error := true; delay_seconds := 0 |})
      ["fetch"; "parse"; "report"].

End ExecutorCases.

Module StatsCases.

Import ToolRegistry ToolExecutor ToolStats ExecutorCases.

Definition named (k : option string) (rec : ExecutionRecord) : bool :=
  name_eqb (ex_tool_name rec) k.

Definition succeeded (rec : ExecutionRecord) : bool :=
  String.eqb (ex_status rec) "completed".

Definition errored (rec : ExecutionRecord) : bool :=
  String.eqb (ex_status rec) "failed" || String.eqb (ex_status rec) "error".

(** A counter with distinct keys and positive counts. *)
Definition tidy (d : Counter) : Prop :=
  List.NoDup (map fst d) /\ (forall k c, In (k, c) d -> 0 < c).

Section WithEnv.
Context {W : Type} `{Env W}.


End WithEnv.

End StatsCases.

Module AgentMoreCases.

Import ToolRegistry ToolExecutor ToolExecutorCases Reasoning AgentStore.
Import AgentFactory Orchestrator.



(** The agents of all phases, in the order of the phases. *)
Definition scheduled (phases : list Phase) : list AgentRecord :=
  flat_map members phases.

(** A phase that runs a batch. *)
Definition is_batch (p : Phase) : bool :=
  match p with
  | Alone _ => false
  | Together _ => true
  end.

(** An agent of the dynamic kind that prefers the tool ["parse"]. *)
Definition parser_agent : DynamicAgent.Agent :=
  DynamicAgent.init 4
    {| def_name := Some "Parser"; def_role := None; def_capabilities := None;
       def_system_prompt := None; def_preferred_tools := Some ["parse"];
       def_specialization := None |}.

#[export] Instance lenient_helpers : DynamicAgent.Helpers :=
  {| DynamicAgent._determine_tool_parameters := fun _ input _ _ =>
       Ok [("input", VStr input)];
     DynamicAgent._validate_results := fun _ results _ =>
       Ok (forallb success results);
     DynamicAgent._synthesize_output := fun _ plan _ _ => reasoning plan |}.


End AgentMoreCases.

Module CancellationCases.

Import TaskManager TaskControl AgentStore Cancellation AgentMoreCases.




End CancellationCases.

Module CalculatorCases.

Import Calculator.

(** No allowed function name occurs in the expression. *)
Definition names_no_function (expression : string) : Prop :=
  forall func, In func allowed_functions -> contains func expression = false.

End CalculatorCases.

(* ===================================================================== *)
(** * Properties of the task manager                                      *)
(* ===================================================================== *)

Module TaskManagerFacts.

Import TaskManager TaskManagerCases.

Section Steps.

Variable store_memory : WorkflowSummary -> bool.

Local Abbreviation exec := (execute_workflow_step store_memory).
Local Abbreviation run := (run_steps store_memory).

Lemma lookup_set_memory st m tid :
  task_workflows (set_memory st m) !! tid = task_workflows st !! tid.
Proof. reflexivity. Qed.

Lemma lookup_set_workflow st tid w :
  task_workflows (set_workflow st tid w) !! tid = Some w.
Proof. unfold set_workflow; simpl. apply lookup_insert_eq. Qed.

(** An index at or past the end is refused before anything is written. *)
Lemma out_of_range_refused st tid wf idx r now :
  task_workflows st !! tid = Some wf ->
  (Z.of_nat (length (steps wf)) <= idx)%Z ->
  exec st tid idx r now =
    (st, Raise (ValueError ("Step index " +:+ pretty idx +:+ " out of range"))).
Proof.
  intros Hwf Hge. unfold execute_workflow_step. rewrite Hwf.
  destruct (Z.leb_spec (Z.of_nat (length (steps wf))) idx); [reflexivity | lia].
Qed.

(** What a call that returns has done to the workflow. *)
Lemma step_applied st tid idx r now st' sr :
  exec st tid idx r now = (st', Ok sr) ->
  exists wf wf',
    task_workflows st !! tid = Some wf /\
    task_workflows st' !! tid = Some wf' /\
    (idx < Z.of_nat (length (steps wf)))%Z /\
    steps wf' = steps wf /\
    current_step wf' = (idx + 1)%Z /\
    step_results wf' = step_results wf ++ [sr] /\
    step_index sr = idx /\
    ((status wf' = status wf /\ (idx + 1 < Z.of_nat (length (steps wf)))%Z) \/
     (status wf' = value COMPLETED /\
      current_step wf' = Z.of_nat (length (steps wf)))).
Proof.
  unfold execute_workflow_step.
  destruct (task_workflows st !! tid) as [wf|] eqn:Hwf; [|discriminate].
  destruct (Z.leb_spec (Z.of_nat (length (steps wf))) idx) as [|Hlt];
    [discriminate|].
  destruct (py_index (steps wf) idx) as [step|]; [|discriminate].
  cbn [steps current_step].
  destruct (Z.leb_spec (Z.of_nat (length (steps wf))) (idx + 1)) as [Hdone|Hmore].
  - unfold _store_workflow_result.
    match goal with |- context [store_memory ?x] => destruct (store_memory x) end;
      [|discriminate].
    intros [= <- <-]. eexists wf, _. split; [reflexivity|].
    split; [rewrite lookup_set_memory; apply lookup_set_workflow|].
    cbn. repeat split; try reflexivity; try lia. right. split; [reflexivity|lia].
  - intros [= <- <-]. eexists wf, _. split; [reflexivity|].
    split; [apply lookup_set_workflow|].
    cbn. repeat split; try reflexivity; try lia. left. split; [reflexivity|lia].
Qed.

Lemma run_snoc st tid pre c :
  run st tid (pre ++ [c]) =
    match run st tid pre with
    | (st1, true) => run st1 tid [c]
    | (st1, false) => (st1, false)
    end.
Proof.
  revert st. induction pre as [|[[i r] now] pre IH]; intros st; simpl.
  - reflexivity.
  - destruct (exec st tid i r now) as [st1 [sr|e]]; [apply IH | reflexivity].
Qed.

(** A run that goes through keeps the workflow and its list of steps. *)
Lemma run_keeps_steps calls : forall st tid wf st',
  task_workflows st !! tid = Some wf ->
  run st tid calls = (st', true) ->
  exists wf', task_workflows st' !! tid = Some wf' /\ steps wf' = steps wf.
Proof.
  induction calls as [|[[i r] now] calls IH]; intros st tid wf st' Hwf Hrun;
    simpl in Hrun.
  - injection Hrun as <-. eauto.
  - destruct (exec st tid i r now) as [st1 [sr|e]] eqn:He; [|discriminate].
    apply step_applied in He as (w0 & w1 & H0 & H1 & _ & Hs & _).
    rewrite Hwf in H0. injection H0 as <-.
    destruct (IH _ _ _ _ H1 Hrun) as (wf' & Hl & Hs').
    exists wf'. split; [assumption | congruence].
Qed.

(** After a run that goes through and ends with the last step of the
    workflow, the workflow is completed. *)
Lemma run_ending_with_last_step st tid wf pre r now st' :
  task_workflows st !! tid = Some wf ->
  run st tid (pre ++ [(Z.of_nat (length (steps wf)) - 1, r, now)%Z]) = (st', true) ->
  exists wf',
    task_workflows st' !! tid = Some wf' /\
    status wf' = value COMPLETED /\
    current_step wf' = Z.of_nat (length (steps wf)).
Proof.
  intros Hwf Hrun. rewrite run_snoc in Hrun.
  destruct (run st tid pre) as [st1 [|]] eqn:Hpre; [|discriminate].
  destruct (run_keeps_steps _ _ _ _ _ Hwf Hpre) as (w1 & Hw1 & Hs1).
  simpl in Hrun.
  destruct (exec st1 tid _ r now) as [st2 [sr|e]] eqn:He; [|discriminate].
  injection Hrun as <-.
  apply step_applied in He as (w0 & w2 & H0 & H2 & _ & Hs & Hc & _ & _ & Hst).
  rewrite Hw1 in H0. injection H0 as <-.
  exists w2. split; [assumption|]. rewrite Hs1 in *.
  destruct Hst as [[_ Hlt]|[Hst Hcur]]; [lia|]. split; [assumption|].
  rewrite Hc. lia.
Qed.

(** C1 (as amended).  An index at or past the end of the step list makes
    [execute_workflow_step] raise the out-of-range error with the state
    untouched; and when the steps of a non-empty workflow are applied in
    order, one call per step with indices 0, 1, ..., N-1 and N the number
    of steps, and every call returns, the workflow ends completed with
    [current_step] equal to the number of steps. *)
Theorem C1_range_check_and_in_order_completion st tid wf :
  task_workflows st !! tid = Some wf ->
  (forall idx r now,
     (Z.of_nat (length (steps wf)) <= idx)%Z ->
     exec st tid idx r now =
       (st, Raise (ValueError ("Step index " +:+ pretty idx +:+ " out of range"))))
  /\
  (forall calls st',
     steps wf <> [] ->
     map (fun c => fst (fst c)) calls = in_order (length (steps wf)) ->
     run st tid calls = (st', true) ->
     exists wf',
       task_workflows st' !! tid = Some wf' /\
       status wf' = value COMPLETED /\
       current_step wf' = Z.of_nat (length (steps wf))).
Proof.
  intros Hwf. split.
  - intros idx r now Hge. eapply out_of_range_refused; eassumption.
  - intros calls st' Hne Hidx Hrun.
    destruct (steps wf) as [|s0 ss] eqn:Hsteps; [congruence|].
    assert (Hlen : length calls = S (length ss)).
    { rewrite <- (length_map (fun c => fst (fst c)) calls), Hidx.
      unfold in_order. rewrite length_map, length_seq. reflexivity. }
    destruct (@exists_last _ calls) as (pre & [[i r] now] & ->).
    { intros ->. discriminate. }
    rewrite map_app in Hidx. simpl in Hidx.
    assert (Hi : i = (Z.of_nat (length (steps wf)) - 1)%Z).
    { unfold in_order in Hidx. simpl length in Hidx.
      rewrite seq_S, map_app in Hidx. simpl in Hidx.
      apply app_inj_tail in Hidx as [_ Hi]. rewrite Hsteps. simpl length. lia. }
    subst i. rewrite <- Hsteps.
    eapply run_ending_with_last_step; eassumption.
Qed.

(** C6 (as amended).  A call that returns appends exactly its own result
    to [step_results] and sets [current_step] to the index it was given
    plus one; so when the index given is the current [current_step] and
    [current_step] is the number of results so far, [current_step] grows
    and is again the number of results.  The status changes only to
    completed, and only when the new [current_step] is the number of
    steps. *)
Theorem C6_step_application st tid idx r now st' sr :
  exec st tid idx r now = (st', Ok sr) ->
  exists wf wf',
    task_workflows st !! tid = Some wf /\
    task_workflows st' !! tid = Some wf' /\
    step_results wf' = step_results wf ++ [sr] /\
    current_step wf' = (idx + 1)%Z /\
    (idx = current_step wf ->
     current_step wf = Z.of_nat (length (step_results wf)) ->
     (current_step wf < current_step wf')%Z /\
     current_step wf' = Z.of_nat (length (step_results wf'))) /\
    (status wf' = status wf \/
     (status wf' = value COMPLETED /\
      current_step wf' = Z.of_nat (length (steps wf')))).
Proof.
  intros He.
  apply step_applied in He as (wf & wf' & H0 & H1 & _ & Hs & Hc & Hr & _ & Hst).
  exists wf, wf'. repeat split; try assumption.
  - lia.
  - rewrite Hr, length_app. simpl. lia.
  - destruct Hst as [[Hst _]|[Hst Hcur]]; [left; assumption|].
    right. split; [assumption|]. rewrite Hs. assumption.
Qed.

End Steps.

(** *** Concrete runs *)

(** Two calls go through on a workflow of two steps, both with index 0:
    the workflow is still pending and [current_step] is 1, not 2. *)
Lemma C1_repeated_index_counterexample :
  let calls := [(0, ok_result, 1); (0, ok_result, 2)]%Z in
  let out := run_steps always_stored two_steps 1 calls in
  length calls = 2 /\
  snd out = true /\
  status_of (fst out) 1 = Some "pending" /\
  current_step_of (fst out) 1 = Some 1%Z /\
  ~ (status_of (fst out) 1 = Some (value COMPLETED) /\
     current_step_of (fst out) 1 = Some 2%Z).
Proof.
  vm_compute. repeat split; try reflexivity. intros [H _]. discriminate.
Qed.

(** The same workflow with its two steps applied in order, index 0 and
    then index 1: it ends completed with [current_step] 2. *)
Lemma C1_witness :
  task_workflows two_steps !! 1%Z <> None /\
  exists wf',
    task_workflows
      (fst (run_steps always_stored two_steps 1
              [(0, ok_result, 1); (1, ok_result, 2)]%Z)) !! 1%Z = Some wf' /\
    status wf' = value COMPLETED /\ current_step wf' = 2%Z.
Proof.
  split; [vm_compute; discriminate|].
  destruct (task_workflows two_steps !! 1%Z) as [wf|] eqn:Hwf;
    [|vm_compute in Hwf; discriminate].
  assert (Hsteps : steps wf =
                   [[("name", VStr "fetch")]; [("name", VStr "report")]]).
  { vm_compute in Hwf. injection Hwf as <-. reflexivity. }
  destruct (C1_range_check_and_in_order_completion always_stored
              two_steps 1 wf Hwf) as [_ Hrun].
  destruct (Hrun [(0, ok_result, 1); (1, ok_result, 2)]%Z
              (fst (run_steps always_stored two_steps 1
                      [(0, ok_result, 1); (1, ok_result, 2)]%Z)))
    as (wf' & H1 & H2 & H3).
  - rewrite Hsteps. discriminate.
  - rewrite Hsteps. reflexivity.
  - vm_compute. reflexivity.
  - exists wf'. rewrite Hsteps in H3. simpl in H3. auto.
Defined.

(** On a workflow of three steps, index 1 and then index 0 both go
    through: [current_step] falls from 2 to 1 while two results are
    recorded. *)
Lemma C6_out_of_order_counterexample :
  let st1 := fst (execute_workflow_step always_stored three_steps 7 1 ok_result 1) in
  let st2 := fst (execute_workflow_step always_stored st1 7 0 ok_result 2) in
  is_ok (snd (execute_workflow_step always_stored three_steps 7 1 ok_result 1)) = true /\
  is_ok (snd (execute_workflow_step always_stored st1 7 0 ok_result 2)) = true /\
  current_step_of st1 7 = Some 2%Z /\
  current_step_of st2 7 = Some 1%Z /\
  results_of st2 7 = Some 2 /\
  ~ (exists a b, current_step_of st1 7 = Some a /\
                 current_step_of st2 7 = Some b /\ (a < b)%Z) /\
  ~ (exists b, current_step_of st2 7 = Some b /\
               results_of st2 7 = Some (Z.to_nat b)).
Proof.
  vm_compute. repeat split; try reflexivity.
  - intros (a & b & [= <-] & [= <-] & H). discriminate H.
  - intros (b & [= <-] & H). discriminate H.
Qed.

(** The first step of a fresh workflow: one result, [current_step] 1. *)
Lemma C6_witness :
  exists wf wf',
    task_workflows two_steps !! 1%Z = Some wf /\
    task_workflows
      (fst (execute_workflow_step always_stored two_steps 1 0 ok_result 1)) !! 1%Z
      = Some wf' /\
    current_step wf' = 1%Z /\
    length (step_results wf') = 1.
Proof.
  destruct (execute_workflow_step always_stored two_steps 1 0 ok_result 1)
    as [st' [sr|e]] eqn:He; [|vm_compute in He; discriminate].
  destruct (C6_step_application always_stored two_steps 1 0 ok_result 1 st' sr He)
    as (wf & wf' & H0 & H1 & Hr & Hc & _ & _).
  exists wf, wf'. simpl. repeat split; try assumption.
  rewrite Hr, length_app.
  assert (Hw : step_results wf = []).
  { vm_compute in H0. injection H0 as <-. reflexivity. }
  rewrite Hw. reflexivity.
Defined.

End TaskManagerFacts.

(* ===================================================================== *)
(** * Properties of the tool registry                                     *)
(* ===================================================================== *)

Module ToolRegistryFacts.

Import ToolRegistry ToolRegistryCases.

(** C7 (as amended).  In a registry that has its ["general"] category,
    registering a tool whose name is already a key goes through without
    an error and puts the new tool in the place of the old one; the other
    registrations stay, and the name is appended once more to the list of
    the category. *)
Theorem C7_register_tool_overwrites reg tool category old names :
  tools reg !! name tool = Some old ->
  tool_categories reg !! "general" <> None ->
  tool_categories reg !! target_category reg category = Some names ->
  exists reg',
    register_tool reg tool category = (reg', Ok tt) /\
    tools reg' !! name tool = Some tool /\
    (forall other, other <> name tool -> tools reg' !! other = tools reg !! other) /\
    tool_categories reg' !! target_category reg category
      = Some (names ++ [name tool]).
Proof.
  intros _ Hgen Hcat. unfold register_tool, target_category in *.
  destruct (tool_categories reg !! category) as [l|] eqn:Hc.
  - rewrite Hc in Hcat. injection Hcat as ->.
    eexists. split; [reflexivity|]. cbn. split; [apply lookup_insert_eq|].
    split; [|apply lookup_insert_eq].
    intros other Hne. apply lookup_insert_ne. congruence.
  - destruct (tool_categories reg !! "general") as [l|] eqn:Hg; [|congruence].
    injection Hcat as ->.
    eexists. split; [reflexivity|]. cbn. split; [apply lookup_insert_eq|].
    split; [|apply lookup_insert_eq].
    intros other Hne. apply lookup_insert_ne. congruence.
Qed.

(** Registering a second tool named ["calculator"] raises nothing and
    replaces the first one. *)
Lemma C7_duplicate_name_counterexample :
  tools with_calculator !! "calculator" = Some calculator_v1 /\
  snd (register_tool with_calculator calculator_v2 "computation") = Ok tt /\
  tools (fst (register_tool with_calculator calculator_v2 "computation"))
    !! "calculator" = Some calculator_v2 /\
  calculator_v2 <> calculator_v1.
Proof.
  repeat split; try (vm_compute; reflexivity). discriminate.
Qed.

(** The second registration goes through, holds the new tool and lists
    the name twice under its category. *)
Lemma C7_witness :
  exists reg',
    register_tool with_calculator calculator_v2 "computation" = (reg', Ok tt) /\
    tools reg' !! "calculator" = Some calculator_v2 /\
    tool_categories reg' !! "computation" = Some ["calculator"; "calculator"].
Proof.
  destruct (C7_register_tool_overwrites with_calculator calculator_v2
              "computation" calculator_v1 ["calculator"])
    as (reg' & H1 & H2 & _ & H4).
  - vm_compute. reflexivity.
  - vm_compute. discriminate.
  - vm_compute. reflexivity.
  - exists reg'. split; [exact H1|]. split; [exact H2|]. exact H4.
Defined.

End ToolRegistryFacts.

(* ===================================================================== *)
(** * Properties of the scheduling plan                                   *)
(* ===================================================================== *)

Module SchedulingFacts.

Import TaskManager TaskManagerCases.

(** *** The loop over the pending tasks *)





(** *** Every task lands in one bucket *)

Lemma filter_split {A : Type} (f : A -> bool) (l : list A) :
  Permutation (List.filter f l ++ List.filter (fun x => negb (f x)) l) l.
Proof.
  induction l as [|x l IH]; simpl; [constructor|].
  destruct (f x); simpl.
  - constructor. exact IH.
  - rewrite <- Permutation_middle. constructor. exact IH.
Qed.

(** *** The order of the tasks *)

Lemma Forall_insert_desc (P : Task -> Prop) t l :
  P t -> Forall P l -> Forall P (insert_desc t l).
Proof.
  intros Ht Hl. induction Hl as [|u l Hu Hl IH]; simpl.
  - repeat constructor. exact Ht.
  - destruct (t_created_at u <? t_created_at t)%Z; repeat constructor; assumption.
Qed.

Lemma insert_desc_sorted t l :
  StronglySorted not_older l -> StronglySorted not_older (insert_desc t l).
Proof.
  induction 1 as [|u l Hs IH Hu]; simpl.
  - repeat constructor.
  - destruct (Z.ltb_spec (t_created_at u) (t_created_at t)) as [Hlt|Hge].
    + constructor; [constructor; assumption|].
      constructor; [unfold not_older; lia|].
      eapply Forall_impl; [exact Hu|]. unfold not_older. intros x Hx. lia.
    + constructor; [exact IH|].
      apply Forall_insert_desc; [unfold not_older; lia | exact Hu].
Qed.

Lemma order_by_created_at_desc_sorted db :
  StronglySorted not_older (order_by_created_at_desc db).
Proof.
  induction db as [|t db IH]; simpl; [constructor|].
  apply insert_desc_sorted, IH.
Qed.


Lemma sorted_app_cross {A : Type} (R : A -> A -> Prop) l1 : forall l2,
  StronglySorted R (l1 ++ l2) ->
  forall a b, In a l1 -> In b l2 -> R a b.
Proof.
  induction l1 as [|x l1 IH]; intros l2 Hs a b Ha Hb; [destruct Ha|].
  simpl in Hs. inversion Hs as [|? ? Hs' Hx]; subst.
  destruct Ha as [<-|Ha].
  - rewrite List.Forall_forall in Hx. apply Hx. apply in_or_app. right. exact Hb.
  - eapply IH; eassumption.
Qed.

Lemma sorted_firstn {A : Type} (R : A -> A -> Prop) n l :
  StronglySorted R l -> StronglySorted R (firstn n l).
Proof.
  revert n. induction l as [|x l IH]; intros [|n] Hs; simpl; try constructor.
  - inversion Hs; subst. apply IH. assumption.
  - inversion Hs as [|? ? _ Hx]; subst. rewrite List.Forall_forall in *.
    intros y Hy. apply Hx. rewrite <- (firstn_skipn n l).
    apply in_or_app. left. exact Hy.
Qed.




(** Of a hundred and one pending tasks, the one created first is in no
    bucket at all. *)
Lemma oldest_of_101_is_not_scheduled :
  let plan := optimize_task_scheduling hundred_and_one_pending in
  In 1%Z (map id (tasks hundred_and_one_pending)) /\
  ~ In 1%Z (map im_task_id (immediate_execution plan) ++
            map rl_task_id (resource_limited plan) ++
            map dw_task_id (dependency_waiting plan)).
Proof.
  cbn zeta. split; [vm_compute; auto|].
  assert (H : forallb (fun z => negb (z =? 1)%Z)
                (map im_task_id
                   (immediate_execution
                      (optimize_task_scheduling hundred_and_one_pending)) ++
                 map rl_task_id
                   (resource_limited
                      (optimize_task_scheduling hundred_and_one_pending)) ++
                 map dw_task_id
                   (dependency_waiting
                      (optimize_task_scheduling hundred_and_one_pending))) = true)
    by (vm_compute; reflexivity).
  intros Hin. rewrite forallb_forall in H. specialize (H _ Hin). discriminate H.
Qed.

End SchedulingFacts.

(* ===================================================================== *)
(** * Properties of the tool executor                                     *)
(* ===================================================================== *)

Module ContextFacts.

Import ToolRegistry ToolExecutor ToolExecutorCases.

(** *** Ordered dictionaries *)

Lemma dict_set_fresh {V : Type} (d : Dict V) k v :
  ~ In k (dict_keys d) -> dict_set d k v = d ++ [(k, v)].
Proof.
  induction d as [|[k' v'] d IH]; simpl; intros Hk; [reflexivity|].
  destruct (String.eqb_spec k' k) as [->|Hne]; [tauto|].
  rewrite IH; [reflexivity | tauto].
Qed.

Lemma dict_get_map {V : Type} (g : V -> V) (d : Dict V) k :
  dict_get (map (fun kv => (fst kv, g (snd kv))) d) k = g <$> dict_get d k.
Proof.
  induction d as [|[k' v'] d IH]; simpl; [reflexivity|].
  destruct (String.eqb k' k); [reflexivity | exact IH].
Qed.

(** With distinct keys the loop [resolved[key] = f(value)] is a map over
    the bindings, in their order. *)
Lemma set_loop_is_map {V : Type} (g : V -> V) (l : Dict V) : forall acc,
  List.NoDup (dict_keys acc ++ dict_keys l) ->
  fold_left (fun resolved kv => dict_set resolved (fst kv) (g (snd kv))) l acc
  = acc ++ map (fun kv => (fst kv, g (snd kv))) l.
Proof.
  induction l as [|[k v] l IH]; intros acc Hnd; simpl.
  - rewrite app_nil_r. reflexivity.
  - simpl in Hnd. rewrite dict_set_fresh.
    + rewrite IH.
      * rewrite <- app_assoc. reflexivity.
      * unfold dict_keys in *. rewrite map_app, <- app_assoc. exact Hnd.
    + apply List.NoDup_remove_2 in Hnd. intros Hin. apply Hnd.
      apply in_or_app. left. exact Hin.
Qed.

Lemma resolve_is_map parameters context :
  List.NoDup (dict_keys parameters) ->
  _resolve_context_variables parameters context
  = map (resolve_binding context) parameters.
Proof.
  intros Hnd. unfold _resolve_context_variables.
  apply (set_loop_is_map (resolve_value context) parameters []). exact Hnd.
Qed.

(** *** The cases of the [if/elif] chain *)

Lemma resolve_nested_dict context d :
  resolve_value context (VDict d)
  = VDict (_resolve_context_variables d context).
Proof. reflexivity. Qed.

Lemma resolve_list context items :
  resolve_value context (VList items)
  = VList (map (resolve_item context) items).
Proof. reflexivity. Qed.

Lemma resolve_unbound_placeholder context s :
  startswith "$context." s = true ->
  dict_get context (str_drop 9 s) = None ->
  resolve_value context (VStr s) = VStr s.
Proof.
  intros Hp Hk.
  change (resolve_value context (VStr s))
    with (if startswith "$context." s
          then dict_get_default context (str_drop 9 s) (VStr s)
          else VStr s).
  rewrite Hp. unfold dict_get_default. rewrite Hk. reflexivity.
Qed.

Lemma resolve_plain_scalar context v :
  is_plain_scalar v = true -> resolve_value context v = v.
Proof. destruct v; simpl; intros; congruence. Qed.

(** C10.  For parameters with distinct keys, the resolved dictionary has
    the same keys in the same order and each value is the resolution of
    the original one, where: a string starting with ["$context."] whose
    key is not in the context stays the very same string; a nested
    dictionary is resolved recursively; in a list the dictionaries are
    resolved recursively and every other element is kept; a value that is
    None, a boolean or a number is kept. *)
Theorem C10_context_variable_resolution parameters context :
  List.NoDup (dict_keys parameters) ->
  dict_keys (_resolve_context_variables parameters context)
    = dict_keys parameters /\
  (forall key, dict_get (_resolve_context_variables parameters context) key
               = resolve_value context <$> dict_get parameters key) /\
  (forall key s,
     dict_get parameters key = Some (VStr s) ->
     startswith "$context." s = true ->
     dict_get context (str_drop 9 s) = None ->
     dict_get (_resolve_context_variables parameters context) key
       = Some (VStr s)) /\
  (forall d, resolve_value context (VDict d)
             = VDict (_resolve_context_variables d context)) /\
  (forall items, resolve_value context (VList items)
                 = VList (map (resolve_item context) items)) /\
  (forall item, (forall d, item <> VDict d) -> resolve_item context item = item) /\
  (forall v, is_plain_scalar v = true -> resolve_value context v = v).
Proof.
  intros Hnd. rewrite resolve_is_map by exact Hnd.
  assert (Hget : forall key,
             dict_get (map (resolve_binding context) parameters) key
             = resolve_value context <$> dict_get parameters key)
    by (intros key; apply (dict_get_map (resolve_value context))).
  split; [|split; [exact Hget|split; [|split; [|split; [|split]]]]].
  - unfold dict_keys. rewrite map_map. reflexivity.
  - intros key s Hk Hp Hc. rewrite Hget, Hk. simpl fmap.
    f_equal. apply resolve_unbound_placeholder; assumption.
  - apply resolve_nested_dict.
  - apply resolve_list.
  - intros item Hitem. destruct item; try reflexivity.
    exfalso. eapply Hitem. reflexivity.
  - apply resolve_plain_scalar.
Qed.

(** The sample parameters: the unbound placeholder is kept, and in the
    list only the dictionary is resolved. *)
Lemma C10_witness :
  List.NoDup (dict_keys sample_parameters) /\
  dict_get (_resolve_context_variables sample_parameters sample_context) "query"
    = Some (VStr "$context.missing_result") /\
  dict_get (_resolve_context_variables sample_parameters sample_context) "items"
    = Some (VList [VStr "$context.step_0_result";
                   VDict [("deep", VStr "first")];
                   VInt 4]).
Proof.
  assert (Hnd : List.NoDup (dict_keys sample_parameters)).
  { repeat constructor; simpl; intuition discriminate. }
  split; [exact Hnd|].
  destruct (C10_context_variable_resolution sample_parameters sample_context Hnd)
    as (_ & Hget & Hmiss & _).
  split.
  - apply Hmiss; reflexivity.
  - rewrite Hget. reflexivity.
Defined.

End ContextFacts.

Module ChainFacts.

Import ToolRegistry ToolExecutor ToolExecutorCases.

Section Chains.

Context {W : Type} `{Env W}.
Variables (reg : Registry) (aid : Z) (total : nat).

Local Abbreviation loop := (workflow_loop reg aid total).

(** The loop only appends to the results it was given. *)
Lemma loop_extends steps : forall idx s ctx acc,
  exists more, snd (loop steps idx s ctx acc) = acc ++ more.
Proof.
  induction steps as [|st rest IH]; intros idx s ctx acc; cbn [workflow_loop].
  - exists []. rewrite app_nil_r. reflexivity.
  - destruct (skips st ctx).
    + destruct (IH (S idx) s ctx
                  (acc ++ [Skipped idx (tool st) "condition_not_met"]))
        as [more ->].
      eexists. rewrite <- app_assoc. reflexivity.
    + destruct (execute_single_tool reg s aid (tool st) _) as [s1 res0].
      destruct (negb (success (with_step res0 idx total)) &&
                negb (continue_on_error st)).
      * eexists. reflexivity.
      * match goal with |- context [loop rest ?i ?s2 ?c ?a] =>
          destruct (IH i s2 c a) as [more ->] end.
        eexists. rewrite <- app_assoc. reflexivity.
Qed.

Lemma nth_error_after {A : Type} (acc : list A) x more :
  nth_error ((acc ++ [x]) ++ more) (length acc) = Some x.
Proof.
  rewrite <- app_assoc. rewrite nth_error_app2 by lia.
  rewrite Nat.sub_diag. reflexivity.
Qed.

(** When the entry of step [j] is a failed execution and the step does
    not continue on error, the loop stopped right there: the result list
    ends with that entry, and the steps after [j] played no part. *)
Lemma loop_halts steps : forall idx s ctx acc s' out j st r,
  loop steps idx s ctx acc = (s', out) ->
  nth_error steps j = Some st ->
  continue_on_error st = false ->
  nth_error out (length acc + j) = Some (Executed r) ->
  success r = false ->
  length out = length acc + S j /\
  loop (firstn (S j) steps) idx s ctx acc = (s', out).
Proof.
  induction steps as [|st0 rest IH];
    intros idx s ctx acc s' out j st r Hrun Hst Hcont Hent Hfail.
  - destruct j; discriminate.
  - cbn [firstn]. cbn [workflow_loop] in *.
    destruct (skips st0 ctx) eqn:Hskip.
    + destruct j as [|j].
      * exfalso.
        destruct (loop_extends rest (S idx) s ctx
                    (acc ++ [Skipped idx (tool st0) "condition_not_met"]))
          as [more Hmore].
        rewrite Hrun in Hmore. simpl in Hmore. subst out.
        rewrite Nat.add_0_r, nth_error_after in Hent. discriminate.
      * simpl in Hst.
        destruct (IH _ _ _ _ _ _ j st r Hrun Hst Hcont) as [Hlen Heq];
          [rewrite length_app; simpl;
           replace (length acc + 1 + j) with (length acc + S j) by lia;
           exact Hent | exact Hfail |].
        split; [rewrite Hlen, length_app; simpl; lia | exact Heq].
    + destruct (execute_single_tool reg s aid (tool st0) _) as [s1 res0].
      destruct (negb (success (with_step res0 idx total)) &&
                negb (continue_on_error st0)) eqn:Hhalt.
      * injection Hrun as <- <-.
        destruct j as [|j].
        -- split; [rewrite length_app; simpl; lia | reflexivity].
        -- exfalso. rewrite nth_error_app2 in Hent by lia.
           replace (length acc + S j - length acc) with (S j) in Hent by lia.
           destruct j; discriminate.
      * destruct j as [|j].
        -- exfalso. simpl in Hst. injection Hst as ->.
           match type of Hrun with loop rest ?i ?s2 ?c ?a = _ =>
             destruct (loop_extends rest i s2 c a) as [more Hmore] end.
           rewrite Hrun in Hmore. simpl in Hmore. subst out.
           rewrite Nat.add_0_r, nth_error_after in Hent.
           injection Hent as <-. rewrite Hfail, Hcont in Hhalt. discriminate.
        -- simpl in Hst.
           destruct (IH _ _ _ _ _ _ j st r Hrun Hst Hcont) as [Hlen Heq];
             [rewrite length_app; simpl;
              replace (length acc + 1 + j) with (length acc + S j) by lia;
              exact Hent | exact Hfail |].
           split; [rewrite Hlen, length_app; simpl; lia | exact Heq].
Qed.

(** The entry at position [j] of the result list stands for step [j]. *)
Lemma loop_positions steps : forall idx s ctx acc,
  idx = length acc ->
  (forall j e, nth_error acc j = Some e -> entry_step e = Some j) ->
  forall j e, nth_error (snd (loop steps idx s ctx acc)) j = Some e ->
              entry_step e = Some j.
Proof.
  assert (Hsnoc : forall (acc : list ChainEntry) x,
             (forall j e, nth_error acc j = Some e -> entry_step e = Some j) ->
             entry_step x = Some (length acc) ->
             forall j e, nth_error (acc ++ [x]) j = Some e ->
                         entry_step e = Some j).
  { intros acc x Hacc Hx j e Hj.
    destruct (Nat.lt_ge_cases j (length acc)) as [Hlt|Hge].
    - rewrite nth_error_app1 in Hj by exact Hlt. apply Hacc, Hj.
    - rewrite nth_error_app2 in Hj by exact Hge.
      destruct (j - length acc) as [|k] eqn:Hk.
      + injection Hj as <-. rewrite Hx. f_equal. lia.
      + destruct k; discriminate. }
  induction steps as [|st rest IH]; intros idx s ctx acc Hidx Hacc;
    cbn [workflow_loop].
  - exact Hacc.
  - destruct (skips st ctx).
    + apply IH; [rewrite length_app; simpl; lia|].
      apply Hsnoc; [exact Hacc | simpl; congruence].
    + destruct (execute_single_tool reg s aid (tool st) _) as [s1 res0].
      destruct (negb (success (with_step res0 idx total)) &&
                negb (continue_on_error st)).
      * apply Hsnoc; [exact Hacc | simpl; congruence].
      * apply IH; [rewrite length_app; simpl; lia|].
        apply Hsnoc; [exact Hacc | simpl; congruence].
Qed.

End Chains.

(** C2.  If, in the list [execute_tool_workflow] returns, the entry of
    step [i] is an execution that failed, and step [i] does not set
    [continue_on_error], then the list has exactly [i + 1] entries, the
    entry at each position [j] is the one of step [j], and the outcome,
    state included, is the one of the loop run on the steps [0..i] alone:
    no step after [i] was executed. *)
Theorem C2_failed_step_halts_chain {W : Type} `{Env W}
    (reg : Registry) (aid : Z) (s s' : Executor * W)
    (workflow : list WorkflowStep) (results : list ChainEntry)
    (i : nat) (st : WorkflowStep) (r : ToolResult) :
  execute_tool_workflow reg s aid workflow = (s', results) ->
  nth_error workflow i = Some st ->
  continue_on_error st = false ->
  nth_error results i = Some (Executed r) ->
  success r = false ->
  length results = S i /\
  (forall j e, nth_error results j = Some e -> entry_step e = Some j) /\
  workflow_loop reg aid (length workflow) (firstn (S i) workflow) 0 s [] []
    = (s', results).
Proof.
  unfold execute_tool_workflow. intros Hrun Hst Hcont Hent Hfail.
  destruct (loop_halts reg aid (length workflow) workflow 0 s [] [] s' results
              i st r Hrun Hst Hcont Hent Hfail) as [Hlen Heq].
  split; [exact Hlen|]. split; [|exact Heq].
  intros j e Hj.
  eapply (loop_positions reg aid (length workflow) workflow 0 s [] []);
    [reflexivity | intros [|k] x Hx; discriminate |].
  rewrite Hrun. exact Hj.
Qed.

(** The chain of three steps whose second step fails: two entries, and
    only the first two tools ran. *)
Lemma C2_witness :
  length (snd (execute_tool_workflow three_tools fresh 1 failing_chain)) = 2 /\
  snd (fst (execute_tool_workflow three_tools fresh 1 failing_chain))
    = ["fetch"; "parse"].
Proof.
  destruct (execute_tool_workflow three_tools fresh 1 failing_chain)
    as [s' results] eqn:Hrun.
  assert (Hent : nth_error results 1 =
                 Some (Executed
                         (with_step (failure_result (Some "parse") "cannot parse")
                            1 3))).
  { vm_compute in Hrun. injection Hrun as _ <-. reflexivity. }
  destruct (C2_failed_step_halts_chain three_tools 1 fresh s' failing_chain
              results 1 (plain_step "parse") _ Hrun eq_refl eq_refl Hent eq_refl)
    as (Hlen & _ & _).
  split; [exact Hlen|].
  vm_compute in Hrun. injection Hrun as <- _. reflexivity.
Defined.

End ChainFacts.

Module ParallelFacts.

Import ToolRegistry ToolExecutor ToolExecutorCases ParallelCases.


Section Batches.

Context {W : Type} `{Env W}.


End Batches.



End ParallelFacts.

Module ConditionFacts.

Import ToolRegistry ToolExecutor ToolExecutorCases.

Section Conditions.

Context {W : Type} `{Env W}.

(** A condition whose resolved text holds one of the four blocked tokens
    evaluates to [False]. *)
Lemma blocked_token_gives_false condition context :
  existsb (fun op => contains op (resolve_condition condition context))
          blocked_tokens = true ->
  _evaluate_condition condition context = VBool false.
Proof. intros Hb. unfold _evaluate_condition. rewrite Hb. reflexivity. Qed.

(** A condition on which the interpreter raises evaluates to [False]. *)
Lemma raising_condition_gives_false condition context e :
  py_eval (resolve_condition condition context) = Raise e ->
  _evaluate_condition condition context = VBool false.
Proof.
  intros He. unfold _evaluate_condition.
  destruct (existsb _ blocked_tokens); [reflexivity|]. rewrite He. reflexivity.
Qed.

End Conditions.

(** C5, what the code does.  Whatever the resolved text of a condition
    is, if none of the four tokens [import], [exec], [eval], [__] occurs
    in it, it is handed to the interpreter and the value the interpreter
    gives is the value of the condition: [allowed_operators] is never
    consulted, and an expression outside the boolean subset is accepted
    like any other. *)
Theorem C5_any_unblocked_expression_is_evaluated {W : Type} `{Env W}
    (condition : string) (context : Dict PyVal) (v : PyVal) :
  existsb (fun op => contains op (resolve_condition condition context))
          blocked_tokens = false ->
  py_eval (resolve_condition condition context) = Ok v ->
  _evaluate_condition condition context = v.
Proof.
  intros Hb He. unfold _evaluate_condition. rewrite Hb, He. reflexivity.
Qed.

(** An attribute access, a method call and an ordering comparison, none
    of them in the boolean subset: the condition holds and the step it
    guards is run. *)
Lemma C5_witness :
  _evaluate_condition "(2).bit_length() < 3" [] = VBool true /\
  skips {| tool := Some "fetch"; step_parameters := [];
           condition := Some "(2).bit_length() < 3";
           continue_on_error := false; delay_seconds := 0 |} [] = false.
Proof.
  assert (Hv : _evaluate_condition "(2).bit_length() < 3" [] = VBool true).
  { apply (C5_any_unblocked_expression_is_evaluated (W := list string));
      reflexivity. }
  split; [exact Hv|]. unfold skips. cbn [condition]. rewrite Hv. reflexivity.
Defined.

End ConditionFacts.

(* ===================================================================== *)
(** * Properties of the agents                                            *)
(* ===================================================================== *)

Module AgentFacts.

Import ToolRegistry ToolExecutor ToolExecutorCases AgentStore Reasoning.
Import AgentCases.

Section Invocations.

Context {W : Type} `{Env W} `{Service W}.

(** Every call of [execute_single_tool] leaves exactly one record, under
    the name it was called with. *)
Lemma execute_single_tool_records reg (s : Executor * W) aid n params :
  exists rec,
    execution_history (fst (fst (execute_single_tool reg s aid n params)))
      = execution_history (fst s) ++ [rec] /\
    ex_tool_name rec = n.
Proof.
  destruct s as [ex w]. unfold execute_single_tool, on_exception.
  destruct (create_agent_execution aid _ w) as [w1 [db_id|e]];
    [|eexists; split; reflexivity].
  destruct (dict_get params "tool_name");
    [eexists; split; reflexivity|].
  destruct (execute_tool reg n params w1) as [w2 [res|e]];
    [|eexists; split; reflexivity].
  destruct (update_agent_execution db_id _ w2) as [w3 [u|e]];
    eexists; split; reflexivity.
Qed.

Context `{DynamicAgent.Helpers}.

(** The tool loop of [DynamicAgent.execute] records executions only
    under names that the plan needs and the agent prefers. *)
Lemma dynamic_loop_invocations reg a input ctx plan needed :
  forall (s : Executor * W) acc,
  exists added,
    execution_history
      (fst (fst (DynamicAgent.run_tools reg a input ctx plan needed s acc)))
      = execution_history (fst s) ++ added /\
    (forall n, In n (invoked added) ->
       exists name, n = Some name /\ In name needed /\
                    In name (DynamicAgent.preferred_tools a)).
Proof.
  induction needed as [|t rest IH]; intros s acc; cbn [DynamicAgent.run_tools].
  - exists []. rewrite app_nil_r. split; [reflexivity | intros n []].
  - destruct (existsb (String.eqb t) (DynamicAgent.preferred_tools a)) eqn:Hpref.
    + destruct (DynamicAgent._determine_tool_parameters t input ctx plan)
        as [params|e].
      * destruct (execute_single_tool_records reg s (DynamicAgent.agent_id a)
                    (Some t) params) as (rec & Hrec & Hname).
        destruct (execute_single_tool reg s _ (Some t) params) as [s1 r].
        simpl in Hrec.
        destruct (IH s1 (acc ++ [r])) as (added & Hadd & Hin).
        exists (rec :: added). split.
        -- rewrite Hadd, Hrec, <- app_assoc. reflexivity.
        -- intros n [Hn|Hn].
           ++ exists t. split; [congruence|]. split; [left; reflexivity|].
              apply existsb_exists in Hpref as (x & Hx & Heq).
              apply String.eqb_eq in Heq. subst x. exact Hx.
           ++ destruct (Hin n Hn) as (name & -> & Hneed & Hp).
              exists name. split; [reflexivity|]. split; [right|]; assumption.
      * exists []. rewrite app_nil_r. split; [reflexivity | intros n []].
    + destruct (IH s acc) as (added & Hadd & Hin).
      exists added. split; [exact Hadd|].
      intros n Hn. destruct (Hin n Hn) as (name & -> & Hneed & Hp).
      exists name. split; [reflexivity|]. split; [right|]; assumption.
Qed.

Lemma dynamic_execute_state reg a (s : Executor * W) input ctx :
  exists plan w1,
    execute_agent_reasoning (DynamicAgent.system_prompt a) input ctx
      (DynamicAgent.preferred_tools a) (snd s) = (w1, plan) /\
    snd (fst (DynamicAgent.execute reg a s input ctx))
    = fst (DynamicAgent.run_tools reg (DynamicAgent.set_status a "active")
             input ctx plan (tools_needed plan) (fst s, w1) []).
Proof.
  unfold DynamicAgent.execute. cbn [DynamicAgent.set_status
    DynamicAgent.system_prompt DynamicAgent.preferred_tools].
  destruct (execute_agent_reasoning _ input ctx _ (snd s)) as [w1 plan].
  exists plan, w1. split; [reflexivity|].
  destruct (DynamicAgent.run_tools _ _ _ _ _ _ _ _) as [s2 [results|e]];
    [|reflexivity].
  destruct (DynamicAgent._validate_results plan results input); reflexivity.
Qed.

End Invocations.

(** The agents table never returns a row for [task_id=None], so the
    factory finds no agent. *)
Lemma no_agent_for_null_task st : get_task_agents st None = [].
Proof.
  unfold get_task_agents. induction (agents st) as [|a l IH]; simpl; auto.
Qed.

(** C4.  In one cycle of [DynamicAgent.execute] the executions recorded
    by the tool executor all carry a name that is in the agent's
    [preferred_tools] (and in the plan's [tools_needed]); a tool outside
    the preferred set is never invoked, whatever the plan names.  In one
    cycle of [AgentFactory.execute_agent] the agent lookup, made with
    [task_id=None], finds nothing and the method leaves before its tool
    loop: the executor and the world stay as they were and no tool is
    invoked. *)
Theorem C4_only_preferred_tools_are_invoked {W : Type} `{Env W} `{Service W}
    `{DynamicAgent.Helpers} `{AgentFactory.Helpers}
    (reg : Registry) (s : Executor * W) (input : string) (ctx : Dict PyVal) :
  (forall a,
     exists added,
       execution_history (fst (snd (fst (DynamicAgent.execute reg a s input ctx))))
         = execution_history (fst s) ++ added /\
       (forall n, In (Some n) (invoked added) ->
                  In n (DynamicAgent.preferred_tools a)) /\
       (forall n, ~ In n (DynamicAgent.preferred_tools a) ->
                  ~ In (Some n) (invoked added))) /\
  (forall st agent_id,
     snd (fst (AgentFactory.execute_agent reg st s agent_id input ctx)) = s /\
     is_ok (snd (AgentFactory.execute_agent reg st s agent_id input ctx)) = false).
Proof.
  split.
  - intros a.
    destruct (dynamic_execute_state reg a s input ctx) as (plan & w1 & _ & ->).
    destruct (dynamic_loop_invocations reg (DynamicAgent.set_status a "active")
                input ctx plan (tools_needed plan) (fst s, w1) [])
      as (added & Hadd & Hin).
    exists added. split; [exact Hadd|].
    assert (Hpos : forall n, In (Some n) (invoked added) ->
                             In n (DynamicAgent.preferred_tools a)).
    { intros n Hn. destruct (Hin _ Hn) as (name & [= ->] & _ & Hp). exact Hp. }
    split; [exact Hpos|]. intros n Hout Hn. exact (Hout (Hpos n Hn)).
  - intros st agent_id. unfold AgentFactory.execute_agent.
    rewrite no_agent_for_null_task. simpl. split; reflexivity.
Qed.

(** The tool loop of the factory, taken on its own, asks whether the tool
    is registered and not whether the agent prefers it. *)
Lemma factory_loop_runs_any_registered_tool :
  get_tools_for_capabilities three_tools [] = [] /\
  invoked (execution_history
             (fst (fst (AgentFactory.run_tools three_tools 1 "data" []
                          parse_plan ["parse"] fresh []))))
    = [Some "parse"].
Proof. split; vm_compute; reflexivity. Qed.

(** *** Priorities and the order of execution *)

Lemma dynamic_agent_is_high st task_id d :
  let a := snd (AgentFactory.create_dynamic_agent st task_id d) in
  AgentFactory.type a = "dynamic" /\ AgentFactory.priority a = "high".
Proof. split; reflexivity. Qed.

Lemma default_agent_is_medium st task_id agent_type role :
  let a := snd (AgentFactory.create_default_agent st task_id agent_type role) in
  AgentFactory.type a = "default" /\ AgentFactory.priority a = "medium".
Proof. split; reflexivity. Qed.

Section Creation.

Context {W : Type} `{Service W}.



End Creation.



End AgentFacts.

(* ===================================================================== *)
(** * Further properties of the task manager                              *)
(* ===================================================================== *)

Module WorkflowFacts.

Import TaskManager TaskManagerCases TaskControl TaskControlCases.

Section Steps.

Variable store_memory : WorkflowSummary -> bool.

Local Abbreviation exec := (execute_workflow_step store_memory).
Local Abbreviation run := (run_steps store_memory).

(** A call for a task without workflow, or with an index below
    [-len(steps)], raises before anything is written: the first with
    ValueError, the second with IndexError. *)
Theorem rejected_calls_write_nothing st tid idx r now :
  (task_workflows st !! tid = None ->
   execute_workflow_step store_memory st tid idx r now =
     (st, Raise (ValueError ("Workflow not found for task " +:+ pretty tid)))) /\
  (forall wf, task_workflows st !! tid = Some wf ->
     (idx < - Z.of_nat (length (steps wf)))%Z ->
     execute_workflow_step store_memory st tid idx r now = (st, Raise IndexError)).
Proof.
  split.
  - intros Hwf. unfold execute_workflow_step. rewrite Hwf. reflexivity.
  - intros wf Hwf Hlow. unfold execute_workflow_step. rewrite Hwf.
    destruct (Z.leb_spec (Z.of_nat (length (steps wf))) idx); [lia|].
    unfold py_index.
    destruct (Z.leb_spec 0 idx); [lia|].
    destruct (Z.leb_spec (- Z.of_nat (length (steps wf))) idx); [lia|].
    reflexivity.
Qed.

Lemma py_index_negative {A : Type} (l : list A) (i : Z) :
  (- Z.of_nat (length l) <= i < 0)%Z ->
  py_index l i = nth_error l (Z.to_nat (Z.of_nat (length l) + i)) /\
  py_index l i <> None.
Proof.
  intros Hi. unfold py_index.
  destruct (Z.leb_spec 0 i); [lia|].
  destruct (Z.leb_spec (- Z.of_nat (length l)) i); [|lia].
  split; [reflexivity|]. apply nth_error_Some. lia.
Qed.

(** A negative index down to [-len(steps)] is accepted as Python indexes
    lists: the call returns, the step counted from the end gives the
    name, one result is appended, [current_step] becomes the index plus
    one, which is at most 0, and the workflow is not completed by it. *)
Theorem negative_index_is_accepted st tid wf idx r now :
  task_workflows st !! tid = Some wf ->
  (- Z.of_nat (length (steps wf)) <= idx < 0)%Z ->
  exists sr wf',
    exec st tid idx r now = (set_workflow st tid wf', Ok sr) /\
    step_index sr = idx /\
    (exists step,
       nth_error (steps wf) (Z.to_nat (Z.of_nat (length (steps wf)) + idx))
         = Some step /\
       step_name sr = dict_get_default step "name" (VStr ("Step " +:+ pretty idx))) /\
    step_results wf' = step_results wf ++ [sr] /\
    current_step wf' = (idx + 1)%Z /\ (current_step wf' <= 0)%Z /\
    status wf' = status wf.
Proof.
  intros Hwf Hi. unfold execute_workflow_step. rewrite Hwf.
  destruct (Z.leb_spec (Z.of_nat (length (steps wf))) idx); [lia|].
  destruct (py_index_negative (steps wf) idx Hi) as [Hidx Hsome].
  destruct (py_index (steps wf) idx) as [step|] eqn:Hstep; [|congruence].
  cbn [steps current_step].
  destruct (Z.leb_spec (Z.of_nat (length (steps wf))) (idx + 1)); [lia|].
  eexists _, _. split; [reflexivity|]. cbn.
  split; [reflexivity|]. split; [exists step; split; [congruence | reflexivity]|].
  repeat split; try reflexivity; lia.
Qed.

(** A call that returns stores a summary in the memory service exactly
    when it completes the workflow, that is when the index plus one
    reaches the number of steps; the summary counts all the steps and the
    results recorded so far, this one included. *)
Theorem summary_stored_on_completion st tid idx r now st' sr :
  exec st tid idx r now = (st', Ok sr) ->
  exists wf wf',
    task_workflows st !! tid = Some wf /\
    task_workflows st' !! tid = Some wf' /\
    ((Z.of_nat (length (steps wf)) <= idx + 1)%Z ->
     memory st' = memory st ++ [summary_of tid wf' now] /\
     total_steps (summary_of tid wf' now) = length (steps wf) /\
     sum_step_results (summary_of tid wf' now) = step_results wf ++ [sr]) /\
    ((idx + 1 < Z.of_nat (length (steps wf)))%Z -> memory st' = memory st).
Proof.
  unfold execute_workflow_step.
  destruct (task_workflows st !! tid) as [wf|] eqn:Hwf; [|discriminate].
  destruct (Z.leb_spec (Z.of_nat (length (steps wf))) idx) as [|Hlt];
    [discriminate|].
  destruct (py_index (steps wf) idx) as [step|]; [|discriminate].
  cbn [steps current_step].
  destruct (Z.leb_spec (Z.of_nat (length (steps wf))) (idx + 1)) as [Hdone|Hmore].
  - unfold _store_workflow_result.
    match goal with |- context [store_memory ?x] => destruct (store_memory x) end;
      [|discriminate].
    intros [= <- <-]. eexists wf, _. split; [reflexivity|].
    split; [apply lookup_insert_eq|].
    split; [intros _; repeat split | intros; lia].
  - intros [= <- <-]. eexists wf, _. split; [reflexivity|].
    split; [apply lookup_insert_eq|].
    split; [intros; lia | intros _; reflexivity].
Qed.

(** A run of calls that all return appends one result per call, whatever
    the indices were. *)
Theorem run_appends_one_result_per_call calls : forall st tid wf st',
  task_workflows st !! tid = Some wf ->
  run st tid calls = (st', true) ->
  exists wf',
    task_workflows st' !! tid = Some wf' /\
    length (step_results wf') = length (step_results wf) + length calls.
Proof.
  induction calls as [|[[i r] now] calls IH]; intros st tid wf st' Hwf Hrun;
    simpl in Hrun.
  - injection Hrun as <-. exists wf. split; [exact Hwf | simpl; lia].
  - destruct (exec st tid i r now) as [st1 [sr|e]] eqn:He; [|discriminate].
    apply TaskManagerFacts.step_applied in He
      as (w0 & w1 & H0 & H1 & _ & _ & _ & Hr & _).
    rewrite Hwf in H0. injection H0 as <-.
    destruct (IH _ _ _ _ H1 Hrun) as (wf' & Hl & Hlen).
    exists wf'. split; [exact Hl|]. rewrite Hlen, Hr, length_app. simpl. lia.
Qed.

End Steps.

(** A task without workflow, and index -3 on a workflow of two steps. *)
Lemma rejected_calls_witness :
  execute_workflow_step always_stored two_steps 5 0 ok_result 9
    = (two_steps,
       Raise (ValueError ("Workflow not found for task " +:+ pretty 5%Z))) /\
  execute_workflow_step always_stored two_steps 1 (-3) ok_result 9
    = (two_steps, Raise IndexError).
Proof.
  destruct (rejected_calls_write_nothing always_stored two_steps 5 0 ok_result 9)
    as [Hnone _].
  destruct (rejected_calls_write_nothing always_stored two_steps 1 (-3)
              ok_result 9) as [_ Hlow].
  split; [apply Hnone; vm_compute; reflexivity|].
  destruct (task_workflows two_steps !! 1%Z) as [wf|] eqn:Hwf;
    [|vm_compute in Hwf; discriminate].
  apply (Hlow wf eq_refl).
  vm_compute in Hwf. injection Hwf as <-. simpl. lia.
Defined.

(** Index -1 on the two-step workflow of task 1. *)
Lemma negative_index_witness :
  exists sr wf',
    execute_workflow_step always_stored two_steps 1 (-1) ok_result 9
      = (set_workflow two_steps 1 wf', Ok sr) /\
    step_name sr = VStr "report" /\ current_step wf' = 0%Z.
Proof.
  destruct (task_workflows two_steps !! 1%Z) as [wf|] eqn:Hwf;
    [|vm_compute in Hwf; discriminate].
  assert (Hsteps : steps wf =
                   [[("name", VStr "fetch")]; [("name", VStr "report")]]).
  { vm_compute in Hwf. injection Hwf as <-. reflexivity. }
  destruct (negative_index_is_accepted always_stored two_steps 1 wf (-1)
              ok_result 9 Hwf)
    as (sr & wf' & He & _ & (step & Hstep & Hname) & _ & Hc & _).
  - rewrite Hsteps. simpl. lia.
  - exists sr, wf'. split; [exact He|]. split; [|exact Hc].
    rewrite Hsteps in Hstep. simpl in Hstep. injection Hstep as <-.
    exact Hname.
Defined.

(** The second step of the two-step workflow completes it and stores one
    summary. *)
Lemma summary_witness :
  let st1 := fst (execute_workflow_step always_stored two_steps 1 0 ok_result 1) in
  let st2 := fst (execute_workflow_step always_stored st1 1 1 ok_result 2) in
  length (memory st1) = 0 /\ length (memory st2) = 1.
Proof.
  cbn zeta.
  destruct (execute_workflow_step always_stored two_steps 1 0 ok_result 1)
    as [st1 [sr1|e]] eqn:H1; [|vm_compute in H1; discriminate].
  destruct (summary_stored_on_completion always_stored _ _ _ _ _ _ _ H1)
    as (wf & wf1 & Hwf & Hwf1 & _ & Hmore).
  assert (Hs : steps wf = [[("name", VStr "fetch")]; [("name", VStr "report")]]).
  { vm_compute in Hwf. injection Hwf as <-. reflexivity. }
  simpl fst.
  split; [rewrite Hmore by (rewrite Hs; simpl; lia); reflexivity|].
  destruct (execute_workflow_step always_stored st1 1 1 ok_result 2)
    as [st2 [sr2|e]] eqn:H2;
    [|vm_compute in H1; injection H1 as <- _; vm_compute in H2; discriminate].
  destruct (summary_stored_on_completion always_stored _ _ _ _ _ _ _ H2)
    as (wf1' & wf2 & Hwf1' & _ & Hdone & _).
  assert (Hs1 : length (steps wf1') = 2).
  { vm_compute in H1. injection H1 as <- _. vm_compute in Hwf1'.
    injection Hwf1' as <-. reflexivity. }
  destruct Hdone as (Hm & _); [rewrite Hs1; simpl; lia|].
  simpl fst. rewrite Hm, length_app.
  rewrite Hmore by (rewrite Hs; simpl; lia). reflexivity.
Defined.

(** Three calls on the three-step workflow, all with index 0. *)
Lemma run_witness :
  exists wf',
    task_workflows
      (fst (run_steps always_stored three_steps 7
              [(0, ok_result, 1); (0, ok_result, 2); (0, ok_result, 3)]%Z)) !! 7%Z
      = Some wf' /\
    length (step_results wf') = 3.
Proof.
  destruct (task_workflows three_steps !! 7%Z) as [wf|] eqn:Hwf;
    [|vm_compute in Hwf; discriminate].
  destruct (run_appends_one_result_per_call always_stored
              [(0, ok_result, 1); (0, ok_result, 2); (0, ok_result, 3)]%Z
              three_steps 7 wf
              (fst (run_steps always_stored three_steps 7
                      [(0, ok_result, 1); (0, ok_result, 2); (0, ok_result, 3)]%Z))
              Hwf)
    as (wf' & Hl & Hlen).
  - vm_compute. reflexivity.
  - exists wf'. split; [exact Hl|]. rewrite Hlen.
    vm_compute in Hwf. injection Hwf as <-. reflexivity.
Defined.

End WorkflowFacts.

Module DependencyFacts.

Import TaskManager TaskManagerCases TaskControl TaskControlCases.

Lemma filter_nil_iff {A : Type} (f : A -> bool) (l : list A) :
  List.filter f l = [] <-> (forall x, In x l -> f x = false).
Proof.
  induction l as [|a l IH]; simpl.
  - split; [intros _ x [] | reflexivity].
  - destruct (f a) eqn:Ha.
    + split; [discriminate|]. intros Hall. specialize (Hall a (or_introl eq_refl)).
      congruence.
    + rewrite IH. split.
      * intros Hall x [<-|Hx]; [exact Ha | apply Hall, Hx].
      * intros Hall x Hx. apply Hall. right. exact Hx.
Qed.






(** A dependency list recorded for a task outlives a new workflow for
    the same task that declares no dependency: the new workflow carries
    none, yet [check_task_dependencies] answers from the old list. *)
Theorem stale_dependencies_survive st tid wsteps deps timeout now
    wsteps' timeout' now' :
  deps <> [] ->
  let st1 := fst (create_task_workflow st tid wsteps deps timeout now) in
  let st2 := fst (create_task_workflow st1 tid wsteps' [] timeout' now') in
  (dependencies <$> task_workflows st2 !! tid) = Some [] /\
  task_dependencies st2 !! tid = Some deps /\
  check_task_dependencies st2 tid = check_task_dependencies st1 tid.
Proof.
  intros Hne. cbn zeta. unfold create_task_workflow. cbn [fst].
  destruct deps as [|d deps]; [congruence|].
  cbn [task_workflows task_dependencies].
  split; [rewrite lookup_insert_eq; reflexivity|].
  split; [apply lookup_insert_eq | reflexivity].
Qed.

Lemma stale_dependencies_witness :
  let st2 := fst (create_task_workflow two_dependent_tasks 2 [[]] [] 30 3) in
  task_dependencies st2 !! 2%Z = Some [1%Z] /\
  satisfied (check_task_dependencies st2 2) = false.
Proof.
  cbn zeta.
  destruct (stale_dependencies_survive
              (init (tasks two_dependent_tasks)) 2 [[]] [1%Z] 30 2 [[]] 30 3)
    as (_ & Hdeps & Hcheck); [discriminate|].
  split; [exact Hdeps|].
  change (fst (create_task_workflow (init (tasks two_dependent_tasks)) 2 [[]]
                 [1%Z] 30 2)) with two_dependent_tasks in Hcheck.
  rewrite Hcheck. vm_compute. reflexivity.
Defined.

End DependencyFacts.

Module ControlFacts.

Import TaskManager TaskManagerCases TaskControl TaskControlCases.

(** *** Pausing and resuming *)

Lemma with_status_back w :
  status w = value IN_PROGRESS ->
  with_status (with_status w (value PAUSED)) (value IN_PROGRESS) = w.
Proof. destruct w. simpl. intros ->. reflexivity. Qed.

Lemma status_after_update db tid s t :
  In t (update_task_status db tid s) -> id t = tid -> t_status t = s.
Proof.
  unfold update_task_status. intros Hin Hid.
  apply in_map_iff in Hin as (u & Hu & _).
  destruct (Z.eqb_spec (id u) tid) as [He|Hne]; subst t; [reflexivity|].
  contradiction.
Qed.

(** Pausing a workflow that is in progress and resuming it brings the
    workflow back as it was: both calls are answered with the new status,
    the workflow in between is paused, the two time marks are kept, and
    the rows of the task in the table end with status in_progress. *)
Theorem pause_then_resume_restores st marks tid w t1 t2 :
  task_workflows st !! tid = Some w ->
  status w = value IN_PROGRESS ->
  let p := pause_task (st, marks) tid t1 in
  let r := resume_task (fst p) tid t2 in
  snd p = Changed tid "paused" /\
  (status <$> task_workflows (fst (fst p)) !! tid) = Some (value PAUSED) /\
  snd r = Changed tid "resumed" /\
  task_workflows (fst (fst r)) = <[tid := w]> (task_workflows st) /\
  task_workflows (fst (fst r)) !! tid = Some w /\
  paused_at (snd (fst r)) !! tid = Some t1 /\
  resumed_at (snd (fst r)) !! tid = Some t2 /\
  (forall t, In t (tasks (fst (fst r))) -> id t = tid ->
             t_status t = value IN_PROGRESS).
Proof.
  intros Hw Hs. cbn zeta. unfold pause_task. rewrite Hw, Hs. cbn [String.eqb].
  change (String.eqb (value IN_PROGRESS) (value IN_PROGRESS)) with true.
  cbn iota. cbn [fst snd]. unfold resume_task.
  cbn [set_tasks set_workflow task_workflows tasks].
  rewrite lookup_insert_eq. cbn [with_status status].
  change (String.eqb (value PAUSED) (value PAUSED)) with true.
  cbn iota. cbn [fst snd set_tasks set_workflow task_workflows tasks
                 paused_at resumed_at fmap option_fmap option_map].
  fold (with_status w (value PAUSED)).
  fold (with_status (with_status w (value PAUSED)) (value IN_PROGRESS)).
  rewrite with_status_back by exact Hs. rewrite insert_insert_eq.
  split; [reflexivity|]. split; [reflexivity|]. split; [reflexivity|].
  split; [reflexivity|]. split; [apply lookup_insert_eq|].
  split; [apply lookup_insert_eq|]. split; [apply lookup_insert_eq|].
  intros t Hin Hid. eapply status_after_update; eassumption.
Qed.

Lemma pause_resume_witness :
  task_workflows
    (fst (fst (resume_task (fst (pause_task running 3 10)) 3 20))) !! 3%Z
    = task_workflows (fst running) !! 3%Z /\
  resumed_at (snd (fst (resume_task (fst (pause_task running 3 10)) 3 20))) !! 3%Z
    = Some 20%Z.
Proof.
  destruct (task_workflows (fst running) !! 3%Z) as [w|] eqn:Hw;
    [|vm_compute in Hw; discriminate].
  destruct (pause_then_resume_restores (fst running) (snd running) 3 w 10 20 Hw)
    as (_ & _ & _ & _ & Hback & _ & Hres & _).
  - vm_compute in Hw. injection Hw as <-. reflexivity.
  - split; [exact Hback | exact Hres].
Defined.

(** *** What the manager's own calls can reach *)

Section Reachable.

Variable store_memory : WorkflowSummary -> bool.

Lemma lookup_after_forget l : forall st tid w,
  task_workflows (fold_left forget l st) !! tid = Some w ->
  task_workflows st !! tid = Some w.
Proof.
  induction l as [|a l IH]; intros st tid w Hl; simpl in Hl; [exact Hl|].
  apply IH in Hl. unfold forget in Hl. cbn [task_workflows] in Hl.
  apply lookup_delete_Some in Hl as [_ Hl]. exact Hl.
Qed.

Lemma insert_keeps (P : Workflow -> Prop) (m : gmap Z Workflow) tid w :
  (forall k x, m !! k = Some x -> P x) -> P w ->
  forall k x, <[tid := w]> m !! k = Some x -> P x.
Proof.
  intros Hm Hw k x Hk. destruct (decide (tid = k)) as [->|Hne].
  - rewrite lookup_insert_eq in Hk. injection Hk as <-. exact Hw.
  - rewrite lookup_insert_ne in Hk by exact Hne. eapply Hm; eassumption.
Qed.

Lemma call_keeps_status s c :
  all_pending_or_completed s -> all_pending_or_completed (call store_memory s c).
Proof.
  intros Hs. destruct s as [st marks]. unfold all_pending_or_completed in *.
  cbn [fst] in Hs.
  destruct c as [tid wsteps deps timeout now|tid idx r now|tid now|tid now|hours now];
    cbn [call fst snd].
  - unfold create_task_workflow. cbn [fst task_workflows].
    apply insert_keeps; [exact Hs | left; reflexivity].
  - unfold execute_workflow_step.
    destruct (task_workflows st !! tid) as [wf|] eqn:Hwf; [|exact Hs].
    destruct (Z.of_nat (length (steps wf)) <=? idx)%Z; [exact Hs|].
    destruct (py_index (steps wf) idx); [|exact Hs].
    cbn [steps current_step].
    destruct (Z.of_nat (length (steps wf)) <=? idx + 1)%Z.
    + unfold _store_workflow_result.
      match goal with |- context [store_memory ?x] => destruct (store_memory x) end;
        cbn [fst set_memory set_workflow task_workflows];
        (apply insert_keeps; [exact Hs | right; reflexivity]).
    + cbn [fst set_workflow task_workflows].
      apply insert_keeps; [exact Hs|]. exact (Hs tid wf Hwf).
  - unfold pause_task.
    destruct (task_workflows st !! tid) as [wf|] eqn:Hwf; [|exact Hs].
    destruct (String.eqb_spec (status wf) (value IN_PROGRESS)) as [He|_];
      [|exact Hs].
    destruct (Hs tid wf Hwf) as [Hp|Hp]; rewrite Hp in He; discriminate.
  - unfold resume_task.
    destruct (task_workflows st !! tid) as [wf|] eqn:Hwf; [|exact Hs].
    destruct (String.eqb_spec (status wf) (value PAUSED)) as [He|_];
      [|exact Hs].
    destruct (Hs tid wf Hwf) as [Hp|Hp]; rewrite Hp in He; discriminate.
  - unfold cleanup_completed_workflows. cbn [fst].
    intros k x Hk. apply lookup_after_forget in Hk. eapply Hs; eassumption.
Qed.

Lemma calls_keep_status cs : forall s,
  all_pending_or_completed s -> all_pending_or_completed (calls store_memory s cs).
Proof.
  unfold calls. induction cs as [|c cs IH]; intros s Hs; simpl; [exact Hs|].
  apply IH, call_keeps_status, Hs.
Qed.

(** Starting from a fresh manager, no sequence of its calls (creating
    workflows, executing steps, pausing, resuming, cleaning up) leaves a
    workflow with a status other than pending or completed: no call ever
    sets in_progress.  So [pause_task] and [resume_task] are refused for
    every task, and refuse without changing anything. *)
Theorem pause_and_resume_are_always_refused db cs tid now :
  let s := calls store_memory (init db, no_marks) cs in
  all_pending_or_completed s /\
  pause_task s tid now = (s, Refused ("Cannot pause task " +:+ pretty tid)) /\
  resume_task s tid now = (s, Refused ("Cannot resume task " +:+ pretty tid)).
Proof.
  cbn zeta.
  assert (Hinv : all_pending_or_completed
                   (calls store_memory (init db, no_marks) cs)).
  { apply calls_keep_status. intros k w Hk. cbn in Hk.
    rewrite lookup_empty in Hk. discriminate. }
  split; [exact Hinv|].
  destruct (calls store_memory (init db, no_marks) cs) as [st marks].
  unfold all_pending_or_completed in Hinv. cbn [fst] in Hinv.
  unfold pause_task, resume_task.
  destruct (task_workflows st !! tid) as [wf|] eqn:Hwf; [|split; reflexivity].
  destruct (Hinv tid wf Hwf) as [Hp|Hp]; rewrite Hp; split; reflexivity.
Qed.

End Reachable.

(** *** Cleaning up *)

Lemma removed_iff (m : gmap Z Workflow) (f : Workflow -> bool) tid :
  In tid (map fst (List.filter (fun kv => f (snd kv)) (map_to_list m))) <->
  exists w, m !! tid = Some w /\ f w = true.
Proof.
  rewrite in_map_iff. split.
  - intros ([k w] & Hk & Hin). simpl in Hk. subst k.
    apply filter_In in Hin as [Hin Hf]. exists w. split; [|exact Hf].
    apply elem_of_map_to_list, list_elem_of_In, Hin.
  - intros (w & Hw & Hf). exists (tid, w). split; [reflexivity|].
    apply filter_In. split; [|exact Hf].
    apply list_elem_of_In, elem_of_map_to_list, Hw.
Qed.

Lemma forget_all l : forall st tid,
  (In tid l ->
   task_workflows (fold_left forget l st) !! tid = None /\
   task_timeouts (fold_left forget l st) !! tid = None /\
   task_dependencies (fold_left forget l st) !! tid = None) /\
  (~ In tid l ->
   task_workflows (fold_left forget l st) !! tid = task_workflows st !! tid /\
   task_timeouts (fold_left forget l st) !! tid = task_timeouts st !! tid /\
   task_dependencies (fold_left forget l st) !! tid = task_dependencies st !! tid) /\
  tasks (fold_left forget l st) = tasks st /\
  memory (fold_left forget l st) = memory st.
Proof.
  induction l as [|a l IH]; intros st tid; cbn [fold_left].
  - split; [intros []|]. repeat split.
  - destruct (IH (forget st a) tid) as (Hin & Hout & Ht & Hm).
    split; [|split; [|split; [exact Ht | exact Hm]]].
    + intros [->|Hl].
      * destruct (in_dec Z.eq_dec tid l) as [Hl|Hl]; [exact (Hin Hl)|].
        destruct (Hout Hl) as (-> & -> & ->). unfold forget. cbn.
        rewrite !lookup_delete_eq. repeat split.
      * exact (Hin Hl).
    + intros Hnot. destruct (Hout (fun H => Hnot (or_intror H))) as (-> & -> & ->).
      unfold forget. cbn.
      rewrite !lookup_delete_ne by (intros ->; apply Hnot; left; reflexivity).
      repeat split.
Qed.

Lemma NoDup_keys_filter {A : Type} (f : Z * A -> bool) (l : list (Z * A)) :
  List.NoDup (map fst l) -> List.NoDup (map fst (List.filter f l)).
Proof.
  induction l as [|kv l IH]; simpl; intros Hnd; [constructor|].
  inversion Hnd as [|? ? Hnot Hnd']; subst.
  destruct (f kv); [|apply IH, Hnd'].
  simpl. constructor; [|apply IH, Hnd'].
  intros Hin. apply Hnot. apply in_map_iff in Hin as (x & Hx & Hin).
  apply in_map_iff. exists x. split; [exact Hx|].
  apply filter_In in Hin. tauto.
Qed.

Lemma size_after_forget l : forall st,
  List.NoDup l ->
  (forall k, In k l -> task_workflows st !! k <> None) ->
  size (task_workflows (fold_left forget l st)) + length l
  = size (task_workflows st).
Proof.
  induction l as [|a l IH]; intros st Hnd Hin; cbn [fold_left length].
  - lia.
  - inversion Hnd as [|? ? Hnot Hnd']; subst.
    rewrite Nat.add_succ_r, IH.
    + unfold forget. cbn [task_workflows]. rewrite map_size_delete.
      destruct (task_workflows st !! a) eqn:Ha.
      * assert (size (task_workflows st) <> 0)
          by (apply map_size_ne_0_lookup; exists a; rewrite Ha; eauto).
        simpl. lia.
      * exfalso. apply (Hin a); [left; reflexivity | exact Ha].
    + exact Hnd'.
    + intros k Hk. unfold forget. cbn [task_workflows].
      rewrite lookup_delete_ne by (intros ->; contradiction).
      apply Hin. right. exact Hk.
Qed.

(** [cleanup_completed_workflows] removes exactly the workflows that are
    completed and whose completion time lies before the cutoff, together
    with their timeouts and dependency lists; every other entry of the
    three dictionaries, the task table and the memory are left alone; the
    number it returns is the number of workflows removed; and cleaning up
    again at the same time removes nothing. *)
Theorem cleanup_removes_exactly_the_expired st hours now :
  let cutoff := (now - hours * 3600)%Z in
  let out := cleanup_completed_workflows st hours now in
  (forall tid w, task_workflows st !! tid = Some w ->
     expired now cutoff w = true ->
     task_workflows (fst out) !! tid = None /\
     task_timeouts (fst out) !! tid = None /\
     task_dependencies (fst out) !! tid = None) /\
  (forall tid,
     (forall w, task_workflows st !! tid = Some w -> expired now cutoff w = false) ->
     task_workflows (fst out) !! tid = task_workflows st !! tid /\
     task_timeouts (fst out) !! tid = task_timeouts st !! tid /\
     task_dependencies (fst out) !! tid = task_dependencies st !! tid) /\
  tasks (fst out) = tasks st /\
  memory (fst out) = memory st /\
  size (task_workflows (fst out)) + snd out = size (task_workflows st) /\
  cleanup_completed_workflows (fst out) hours now = (fst out, 0).
Proof.
  cbn zeta. unfold cleanup_completed_workflows. cbn [fst snd].
  set (cutoff := (now - hours * 3600)%Z).
  set (gone := map fst (List.filter (fun kv => expired now cutoff (snd kv))
                          (map_to_list (task_workflows st)))).
  assert (Hgone : forall tid, In tid gone <->
            exists w, task_workflows st !! tid = Some w /\
                      expired now cutoff w = true)
    by (intros tid; apply (removed_iff (task_workflows st) (expired now cutoff))).
  split; [|split; [|split; [|split; [|split]]]].
  - intros tid w Hw He. apply (forget_all gone st tid).
    apply Hgone. eauto.
  - intros tid Hkeep. apply (forget_all gone st tid).
    intros Hin. apply Hgone in Hin as (w & Hw & He).
    rewrite (Hkeep w Hw) in He. discriminate.
  - apply (forget_all gone st 0%Z).
  - apply (forget_all gone st 0%Z).
  - apply size_after_forget.
    + apply NoDup_keys_filter. apply NoDup_ListNoDup, NoDup_fst_map_to_list.
    + intros k Hk. apply Hgone in Hk as (w & -> & _). discriminate.
  - replace (List.filter (fun kv => expired now cutoff (snd kv))
               (map_to_list (task_workflows (fold_left forget gone st))))
      with (@nil (Z * Workflow)); [reflexivity|].
    symmetry. apply DependencyFacts.filter_nil_iff. intros [k w] Hin.
    apply list_elem_of_In, elem_of_map_to_list in Hin. cbn [snd].
    destruct (expired now cutoff w) eqn:He; [|reflexivity].
    destruct (in_dec Z.eq_dec k gone) as [Hk|Hk].
    + destruct (forget_all gone st k) as (Hrem & _).
      destruct (Hrem Hk) as (Hnone & _). congruence.
    + destruct (forget_all gone st k) as (_ & Hkept & _).
      destruct (Hkept Hk) as (Hsame & _). rewrite Hsame in Hin.
      exfalso. apply Hk, Hgone. eauto.
Qed.

End ControlFacts.

Module RecentTasksFacts.

Import TaskManager TaskManagerCases.

Lemma insert_desc_permutation t l : Permutation (insert_desc t l) (t :: l).
Proof.
  induction l as [|u l IH]; simpl; [reflexivity|].
  destruct (t_created_at u <? t_created_at t)%Z; [reflexivity|].
  rewrite IH. apply perm_swap.
Qed.

Lemma order_permutation db : Permutation (order_by_created_at_desc db) db.
Proof.
  induction db as [|t db IH]; simpl; [reflexivity|].
  rewrite insert_desc_permutation. constructor. exact IH.
Qed.

(** [get_recent_tasks(limit)] returns at most [limit] rows, all of them
    rows of the table, from the newest to the oldest, and no row of the
    table is newer than one it returns and left out; when the table has no
    more than [limit] rows it returns all of them. *)
Theorem recent_tasks_are_the_newest db limit :
  let recent := get_recent_tasks db limit in
  length recent <= limit /\
  (forall t, In t recent -> In t db) /\
  StronglySorted not_older recent /\
  (exists older,
     Permutation (recent ++ older) db /\
     forall t u, In t recent -> In u older -> not_older t u) /\
  (length db <= limit -> Permutation recent db).
Proof.
  cbn zeta. unfold get_recent_tasks.
  pose proof (order_permutation db) as Hperm.
  pose proof (SchedulingFacts.order_by_created_at_desc_sorted db) as Hsorted.
  set (sorted := order_by_created_at_desc db) in *.
  split; [rewrite length_firstn; lia|]. split; [|split; [|split]].
  - intros t Ht. eapply Permutation_in; [exact Hperm|].
    rewrite <- (firstn_skipn limit sorted). apply in_or_app. left. exact Ht.
  - apply SchedulingFacts.sorted_firstn, Hsorted.
  - exists (skipn limit sorted). split.
    + rewrite firstn_skipn. exact Hperm.
    + intros t u Ht Hu.
      eapply (SchedulingFacts.sorted_app_cross not_older);
        [rewrite firstn_skipn; exact Hsorted | exact Ht | exact Hu].
  - intros Hlen. rewrite firstn_all2; [exact Hperm|].
    rewrite (Permutation_length Hperm). exact Hlen.
Qed.

End RecentTasksFacts.

(* ===================================================================== *)
(** * Further properties of the tool registry                             *)
(* ===================================================================== *)

Module RegistryFacts.

Import ToolRegistry ToolRegistryCases ToolExecutorCases.

(** After a registration that went through, the tool is found under its
    name and is listed in its category, or in ["general"] when the
    category given is not one of the registry's; tools under other names
    are found as before.  A category the registry does not have lists
    nothing. *)
Theorem registered_tool_is_found reg tool category reg' :
  register_tool reg tool category = (reg', Ok tt) ->
  get_tool reg' (Some (name tool)) = Some tool /\
  In tool (get_tools_by_category reg' (target_category reg category)) /\
  (forall other, other <> name tool ->
     get_tool reg' (Some other) = get_tool reg (Some other)) /\
  (forall unknown, tool_categories reg' !! unknown = None ->
     get_tools_by_category reg' unknown = []).
Proof.
  unfold register_tool, target_category, get_tools_by_category, get_tool.
  intros Hreg.
  assert (Hlist : forall (m : gmap string Tool) names,
            m !! name tool = Some tool ->
            In tool (omap (fun n => m !! n) (names ++ [name tool]))).
  { intros m names Hm. apply list_elem_of_In, list_elem_of_omap.
    exists (name tool). split; [|exact Hm].
    apply list_elem_of_In, in_or_app. right. left. reflexivity. }
  destruct (tool_categories reg !! category) as [names|] eqn:Hc.
  - injection Hreg as <-. cbn [tools tool_categories].
    rewrite !lookup_insert_eq. cbn [default].
    split; [reflexivity|]. split; [apply Hlist, lookup_insert_eq|].
    split; [intros other Hne; apply lookup_insert_ne; congruence|].
    intros unknown ->. reflexivity.
  - destruct (tool_categories reg !! "general") as [names|] eqn:Hg;
      [|discriminate].
    injection Hreg as <-. cbn [tools tool_categories].
    rewrite !lookup_insert_eq. cbn [default].
    split; [reflexivity|]. split; [apply Hlist, lookup_insert_eq|].
    split; [intros other Hne; apply lookup_insert_ne; congruence|].
    intros unknown ->. reflexivity.
Qed.

Lemma registered_tool_witness :
  get_tool three_tools (Some "report") = Some (plain_tool "report") /\
  In (plain_tool "report") (get_tools_by_category three_tools "general").
Proof.
  destruct (registered_tool_is_found
              (fst (register_tool
                      (fst (register_tool ToolRegistry.init (plain_tool "fetch")
                              "search"))
                      (plain_tool "parse") "data_processing"))
              (plain_tool "report") "general" three_tools)
    as (Hget & Hcat & _).
  - vm_compute. reflexivity.
  - split; [exact Hget | exact Hcat].
Defined.

(** [get_tools_for_capabilities] returns exactly the tools that the
    static table lists for one of the given capabilities and that are
    registered: a recommendation that is not registered is dropped, a
    capability the table does not know contributes nothing. *)
Theorem recommended_tools_are_registered reg capabilities t :
  In t (get_tools_for_capabilities reg capabilities) <->
  registered reg t = true /\
  exists capability names,
    In capability capabilities /\
    dict_get capability_tool_mapping capability = Some names /\
    In t names.
Proof.
  unfold get_tools_for_capabilities. rewrite filter_In, in_flat_map.
  split.
  - intros [(capability & Hcap & Hin) Hreg]. split; [exact Hreg|].
    destruct (dict_get capability_tool_mapping capability) as [names|] eqn:Hm;
      [|destruct Hin].
    exists capability, names. auto.
  - intros [Hreg (capability & names & Hcap & Hm & Hin)]. split; [|exact Hreg].
    exists capability. split; [exact Hcap|]. rewrite Hm. exact Hin.
Qed.

Section Execution.

Context {W : Type} `{Env W}.



End Execution.


End RegistryFacts.

Module ToolChainFacts.

Import ToolRegistry ToolChain ToolExecutorCases ToolChainCases.


Lemma dict_set_in_place {V : Type} (pre : Dict V) k x post v :
  ~ In k (dict_keys pre) ->
  dict_set (pre ++ (k, x) :: post) k v = pre ++ (k, v) :: post.
Proof.
  induction pre as [|[k' v'] pre IH]; simpl; intros Hk.
  - rewrite String.eqb_refl. reflexivity.
  - destruct (String.eqb_spec k' k) as [->|Hne]; [tauto|].
    rewrite IH by tauto. reflexivity.
Qed.

Lemma substitute_step context pre kv post :
  ~ In (fst kv) (dict_keys pre) ->
  match snd kv with
  | VStr s =>
      if startswith "$context." s then
        match dict_get context (str_drop 9 s) with
        | Some v => dict_set (pre ++ kv :: post) (fst kv) v
        | None => pre ++ kv :: post
        end
      else pre ++ kv :: post
  | _ => pre ++ kv :: post
  end = pre ++ (fst kv, substituted context (snd kv)) :: post.
Proof.
  intros Hk. destruct kv as [k v]. cbn [fst snd] in *. unfold substituted.
  destruct v; try reflexivity.
  destruct (startswith "$context." s); [|reflexivity].
  destruct (dict_get context (str_drop 9 s)); [|reflexivity].
  apply dict_set_in_place, Hk.
Qed.

Lemma substitute_loop context l : forall pre,
  List.NoDup (dict_keys pre ++ dict_keys l) ->
  fold_left
    (fun params kv =>
       match snd kv with
       | VStr s =>
           if startswith "$context." s then
             match dict_get context (str_drop 9 s) with
             | Some v => dict_set params (fst kv) v
             | None => params
             end
           else params
       | _ => params
       end) l (pre ++ l)
  = pre ++ map (fun kv => (fst kv, substituted context (snd kv))) l.
Proof.
  induction l as [|kv l IH]; intros pre Hnd; [reflexivity|].
  cbn [fold_left map]. rewrite substitute_step.
  - change (pre ++ (fst kv, substituted context (snd kv)) :: l)
      with (pre ++ [(fst kv, substituted context (snd kv))] ++ l).
    rewrite app_assoc, IH.
    + rewrite <- app_assoc. reflexivity.
    + unfold dict_keys in *. rewrite map_app, <- app_assoc. exact Hnd.
  - simpl in Hnd. apply List.NoDup_remove_2 in Hnd. intros Hin. apply Hnd.
    apply in_or_app. left. exact Hin.
Qed.

(** For parameters with distinct keys, [execute_tool_chain] replaces a
    top-level string [$context.<key>] by the context value when the key
    is bound and passes every other value on as it is: an unbound
    placeholder stays, and a placeholder inside a nested dictionary or a
    list is not resolved, where the executor's
    [_resolve_context_variables] resolves the one in a dictionary. *)
Theorem chain_substitutes_top_level_only context parameters :
  List.NoDup (dict_keys parameters) ->
  substitute context parameters
    = map (fun kv => (fst kv, substituted context (snd kv))) parameters /\
  (forall key d, dict_get parameters key = Some (VDict d) ->
     dict_get (substitute context parameters) key = Some (VDict d) /\
     dict_get (ToolExecutor._resolve_context_variables parameters context) key
       = Some (VDict (ToolExecutor._resolve_context_variables d context))) /\
  (forall key items, dict_get parameters key = Some (VList items) ->
     dict_get (substitute context parameters) key = Some (VList items)).
Proof.
  intros Hnd.
  assert (Hmap : substitute context parameters
                 = map (fun kv => (fst kv, substituted context (snd kv)))
                       parameters).
  { unfold substitute. apply (substitute_loop context parameters []). exact Hnd. }
  split; [exact Hmap|]. rewrite Hmap. split.
  - intros key d Hk. split.
    + rewrite (ContextFacts.dict_get_map (substituted context)), Hk. reflexivity.
    + rewrite ContextFacts.resolve_is_map by exact Hnd.
      unfold resolve_binding.
      rewrite (ContextFacts.dict_get_map (ToolExecutor.resolve_value context)), Hk.
      reflexivity.
  - intros key items Hk.
    rewrite (ContextFacts.dict_get_map (substituted context)), Hk. reflexivity.
Qed.

Lemma chain_substitution_witness :
  dict_get (substitute sample_context sample_parameters) "source"
    = Some (VStr "first") /\
  dict_get (substitute sample_context sample_parameters) "options"
    = Some (VDict [("inner", VStr "$context.step_0_result")]) /\
  dict_get (ToolExecutor._resolve_context_variables sample_parameters
              sample_context) "options"
    = Some (VDict [("inner", VStr "first")]).
Proof.
  assert (Hnd : List.NoDup (dict_keys sample_parameters)).
  { repeat constructor; simpl; intuition discriminate. }
  destruct (chain_substitutes_top_level_only sample_context sample_parameters Hnd)
    as (Hmap & Hdict & _).
  destruct (Hdict "options" [("inner", VStr "$context.step_0_result")] eq_refl)
    as [Hchain Hexec].
  split; [rewrite Hmap; reflexivity|]. split; [exact Hchain | exact Hexec].
Defined.

Section Chains.

Context {W : Type} `{Env W}.






End Chains.


End ToolChainFacts.

(* ===================================================================== *)
(** * Further properties of the tool executor                             *)
(* ===================================================================== *)

Module ExecutorFacts.

Import ToolRegistry ToolExecutor ToolExecutorCases ExecutorCases.

Section Single.

Context {W : Type} `{Env W}.

Lemma single_execution_facts reg (ex : Executor) (w : W) aid n params :
  let out := execute_single_tool reg (ex, w) aid n params in
  exists rec,
    execution_history (fst (fst out)) = execution_history ex ++ [rec] /\
    ex_tool_name rec = n /\ agent_id rec = aid /\ ex_parameters rec = params /\
    tool_name (snd out) = n /\
    ex_completed_at rec <> None /\
    final rec /\
    (ex_status rec = "completed" <-> success (snd out) = true) /\
    active_executions (fst (fst out))
      = delete (execution_id rec) (active_executions ex).
Proof.
  cbn zeta. unfold execute_single_tool, on_exception, final.
  set (eid := pretty aid +:+ "_" +:+ show_name n +:+ "_" +:+ pretty (clock w)).
  set (rec0 := {| execution_id := eid; agent_id := aid; ex_tool_name := n;
                  ex_parameters := params; started_at := clock w;
                  ex_status := "running"; ex_completed_at := None;
                  ex_error := None |}).
  assert (Hdel : delete eid (<[eid := rec0]> (active_executions ex))
                 = delete eid (active_executions ex))
    by apply delete_insert_eq.
  destruct (create_agent_execution aid _ w) as [w1 [db_id|e]].
  - set (called := match dict_get params "tool_name" with
                   | Some _ => _
                   | None => _
                   end).
    assert (Hname : forall w2 res, called = (w2, Ok res) -> tool_name res = n).
    { intros w2 res. unfold called.
      destruct (dict_get params "tool_name"); [discriminate|].
      unfold execute_tool. destruct (get_tool reg n); [|discriminate].
      destruct (validate_parameters _ params).
      - destruct (tool_execute _ params w1) as [w' [r|e]];
          intros [= <- <-]; reflexivity.
      - intros [= <- <-]; reflexivity. }
    destruct called as [w2 [res|e]].
    + specialize (Hname w2 res eq_refl).
      destruct (update_agent_execution db_id _ w2) as [w3 [u|e]].
      * eexists. cbn. rewrite Hdel.
        repeat split; try reflexivity; try discriminate; try exact Hname.
        -- destruct (success res); auto.
        -- destruct (success res); [reflexivity | discriminate].
        -- destruct (success res); [reflexivity | discriminate].
      * eexists. cbn. rewrite Hdel.
        repeat split; try reflexivity; try discriminate; auto.
    + eexists. cbn. rewrite Hdel.
      repeat split; try reflexivity; try discriminate; auto.
  - eexists. cbn. rewrite Hdel.
    repeat split; try reflexivity; try discriminate; auto.
Qed.




(** *** Workflows *)

Variables (reg : Registry) (aid : Z) (total : nat).

Lemma loop_history steps : forall idx (s : Executor * W) ctx acc,
  exists added more,
    snd (workflow_loop reg aid total steps idx s ctx acc) = acc ++ more /\
    length more <= length steps /\
    execution_history (fst (fst (workflow_loop reg aid total steps idx s ctx acc)))
      = execution_history (fst s) ++ added /\
    invoked added = executed_tools more.
Proof.
  induction steps as [|st rest IH]; intros idx s ctx acc; cbn [workflow_loop].
  - exists [], []. rewrite !app_nil_r. repeat split. simpl. lia.
  - destruct (skips st ctx).
    + destruct (IH (S idx) s ctx
                  (acc ++ [Skipped idx (tool st) "condition_not_met"]))
        as (added & more & Hmore & Hlen & Hhist & Hinv).
      exists added, (Skipped idx (tool st) "condition_not_met" :: more).
      rewrite Hmore, <- app_assoc. repeat split; try assumption. simpl. lia.
    + destruct s as [ex w].
      destruct (single_execution_facts reg ex w aid (tool st)
                  (_resolve_context_variables (step_parameters st) ctx))
        as (rec & Hrec & Hname & _ & _ & Hres & _).
      destruct (execute_single_tool reg (ex, w) aid (tool st) _) as [s1 res0].
      cbn [fst snd] in Hrec, Hres.
      destruct (negb (success (with_step res0 idx total)) &&
                negb (continue_on_error st)).
      * exists [rec], [Executed (with_step res0 idx total)].
        repeat split; try assumption.
        -- simpl. lia.
        -- cbn. rewrite Hname, Hres. reflexivity.
      * match goal with |- context [workflow_loop reg aid total rest ?i ?s2 ?c ?a] =>
          destruct (IH i s2 c a) as (added & more & Hmore & Hlen & Hhist & Hinv)
        end.
        exists (rec :: added), (Executed (with_step res0 idx total) :: more).
        rewrite Hmore, <- app_assoc. split; [reflexivity|].
        split; [simpl; lia|]. split.
        -- rewrite Hhist.
           assert (Hs2 : forall d : bool,
                     execution_history
                       (fst (if d then (fst s1, sleep (delay_seconds st) (snd s1))
                             else s1)) = execution_history (fst s1))
             by (intros []; reflexivity).
           rewrite Hs2, Hrec, <- app_assoc. reflexivity.
        -- cbn. rewrite Hname, Hres. f_equal. exact Hinv.
Qed.

Lemma loop_tolerant steps : forall idx (s : Executor * W) ctx acc,
  (forall st, In st steps -> continue_on_error st = true) ->
  length (snd (workflow_loop reg aid total steps idx s ctx acc))
  = length acc + length steps.
Proof.
  induction steps as [|st rest IH]; intros idx s ctx acc Hall;
    cbn [workflow_loop].
  - simpl. lia.
  - assert (Hrest : forall x, In x rest -> continue_on_error x = true)
      by (intros x Hx; apply Hall; right; exact Hx).
    destruct (skips st ctx).
    + rewrite IH by exact Hrest. rewrite length_app. simpl. lia.
    + destruct (execute_single_tool reg s aid (tool st) _) as [s1 res0].
      rewrite (Hall st (or_introl eq_refl)), andb_false_r.
      rewrite IH by exact Hrest. rewrite length_app. simpl. lia.
Qed.

Lemma loop_all_skipped steps : forall idx (s : Executor * W) ctx acc,
  (forall st, In st steps -> skips st ctx = true) ->
  workflow_loop reg aid total steps idx s ctx acc
  = (s, acc ++ all_skipped idx steps).
Proof.
  induction steps as [|st rest IH]; intros idx s ctx acc Hall;
    cbn [workflow_loop all_skipped].
  - rewrite app_nil_r. reflexivity.
  - rewrite (Hall st (or_introl eq_refl)).
    rewrite IH by (intros x Hx; apply Hall; right; exact Hx).
    rewrite <- app_assoc. reflexivity.
Qed.

End Single.

(** [execute_tool_workflow] returns at most one entry per step, and the
    executions it adds to the history are those of its executed entries,
    tool by tool and in the same order: a skipped step runs nothing. *)
Theorem workflow_runs_its_executed_entries {W : Type} `{Env W}
    (reg : Registry) (s : Executor * W) (aid : Z) (workflow : list WorkflowStep) :
  let out := execute_tool_workflow reg s aid workflow in
  length (snd out) <= length workflow /\
  exists added,
    execution_history (fst (fst out)) = execution_history (fst s) ++ added /\
    invoked added = executed_tools (snd out).
Proof.
  cbn zeta. unfold execute_tool_workflow.
  destruct (loop_history reg aid (length workflow) workflow 0 s [] [])
    as (added & more & Hmore & Hlen & Hhist & Hinv).
  simpl in Hmore. rewrite Hmore. split; [exact Hlen|].
  exists added. split; [exact Hhist | exact Hinv].
Qed.

(** When every step sets [continue_on_error], the workflow goes through
    all its steps whatever fails: the result list has one entry per step,
    the entry at position [j] being the one of step [j]. *)
Theorem tolerant_workflow_visits_every_step {W : Type} `{Env W}
    (reg : Registry) (s : Executor * W) (aid : Z) (workflow : list WorkflowStep) :
  (forall st, In st workflow -> continue_on_error st = true) ->
  length (snd (execute_tool_workflow reg s aid workflow)) = length workflow /\
  (forall j e, nth_error (snd (execute_tool_workflow reg s aid workflow)) j = Some e ->
               entry_step e = Some j).
Proof.
  intros Hall. unfold execute_tool_workflow. split.
  - rewrite loop_tolerant by exact Hall. reflexivity.
  - apply ChainFacts.loop_positions; [reflexivity|].
    intros [|k] x Hx; discriminate.
Qed.

Lemma tolerant_workflow_witness :
  length (snd (execute_tool_workflow three_tools fresh 1 tolerant_chain)) = 3.
Proof.
  destruct (tolerant_workflow_visits_every_step three_tools fresh 1 tolerant_chain)
    as [Hlen _].
  - intros st Hin. unfold tolerant_chain in Hin.
    apply in_map_iff in Hin as (n & <- & _). reflexivity.
  - exact Hlen.
Defined.

(** A workflow each of whose steps carries a non-empty condition holding
    one of the tokens [import], [exec], [eval], [__] runs nothing: every
    step is recorded as skipped and the executor and the world are
    unchanged. *)
Theorem blocked_conditions_skip_every_step {W : Type} `{Env W}
    (reg : Registry) (s : Executor * W) (aid : Z) (workflow : list WorkflowStep) :
  (forall st, In st workflow ->
     exists c, condition st = Some c /\ c <> "" /\
               existsb (fun op => contains op c) blocked_tokens = true) ->
  execute_tool_workflow reg s aid workflow = (s, all_skipped 0 workflow).
Proof.
  intros Hall. unfold execute_tool_workflow.
  apply (loop_all_skipped reg aid (length workflow) workflow 0 s [] []).
  intros st Hst. destruct (Hall st Hst) as (c & Hc & Hne & Hblocked).
  unfold skips. rewrite Hc.
  destruct (String.eqb_spec c "") as [->|_]; [congruence|].
  rewrite (ConditionFacts.blocked_token_gives_false c []) by exact Hblocked.
  reflexivity.
Qed.

Lemma blocked_conditions_witness :
  execute_tool_workflow three_tools fresh 1 [guarded_step; guarded_step]
    = (fresh, [Skipped 0 (Some "fetch") "condition_not_met";
               Skipped 1 (Some "fetch") "condition_not_met"]).
Proof.
  apply (blocked_conditions_skip_every_step three_tools fresh 1
           [guarded_step; guarded_step]).
  intros st [<-|[<-|[]]]; exists "().__class__ == None";
    (split; [reflexivity|]; split; [discriminate | reflexivity]).
Defined.



End ExecutorFacts.

Module StatsFacts.

Import ToolRegistry ToolExecutor ToolExecutorCases ToolStats ExecutorCases.
Import StatsCases.

(** *** Counters *)

Lemma name_eqb_eq a b : name_eqb a b = true <-> a = b.
Proof.
  destruct a as [x|], b as [y|]; simpl; try (split; congruence).
  rewrite String.eqb_eq. split; congruence.
Qed.

Lemma name_eqb_refl a : name_eqb a a = true.
Proof. apply name_eqb_eq. reflexivity. Qed.

Lemma name_eqb_trans a b c :
  name_eqb a b = true -> name_eqb a c = name_eqb b c.
Proof. intros Hab. apply name_eqb_eq in Hab. subst. reflexivity. Qed.

Lemma count_of_set d k n k' :
  count_of (counter_set d k n) k' = if name_eqb k k' then n else count_of d k'.
Proof.
  induction d as [|[k0 n0] d IH]; simpl.
  - destruct (name_eqb k k'); reflexivity.
  - destruct (name_eqb k0 k) eqn:H0; simpl.
    + rewrite (name_eqb_trans _ _ k' H0).
      destruct (name_eqb k k'); reflexivity.
    + destruct (name_eqb k0 k') eqn:H1; [|exact IH].
      destruct (name_eqb k k') eqn:H2; [|reflexivity].
      apply name_eqb_eq in H1, H2. subst. rewrite name_eqb_refl in H0.
      discriminate.
Qed.

Lemma count_of_bump d k k' :
  count_of (bump d k) k' = count_of d k' + (if name_eqb k k' then 1 else 0).
Proof.
  unfold bump. rewrite count_of_set.
  destruct (name_eqb k k') eqn:Hk; [|lia].
  apply name_eqb_eq in Hk. subst. reflexivity.
Qed.

Lemma keys_of_set d k n :
  map fst (counter_set d k n) = map fst d \/
  (~ In k (map fst d) /\ map fst (counter_set d k n) = map fst d ++ [k]).
Proof.
  induction d as [|[k0 n0] d IH]; simpl.
  - right. split; [tauto | reflexivity].
  - destruct (name_eqb k0 k) eqn:H0; simpl; [left; reflexivity|].
    destruct IH as [->|[Hnot ->]]; [left; reflexivity|].
    right. split; [|reflexivity].
    intros [He|Hin]; [|contradiction].
    subst. rewrite name_eqb_refl in H0. discriminate.
Qed.

Lemma in_counter_set d k n k' c :
  In (k', c) (counter_set d k n) -> (k' = k /\ c = n) \/ In (k', c) d.
Proof.
  induction d as [|[k0 n0] d IH]; simpl.
  - intros [[= <- <-]|[]]. left. split; reflexivity.
  - destruct (name_eqb k0 k) eqn:H0; simpl.
    + intros [[= <- <-]|Hin]; [|right; right; exact Hin].
      left. split; [apply name_eqb_eq, H0 | reflexivity].
    + intros [He|Hin]; [right; left; exact He|].
      destruct (IH Hin) as [Hl|Hr]; [left; exact Hl | right; right; exact Hr].
Qed.

Lemma bump_tidy d k : tidy d -> tidy (bump d k).
Proof.
  intros [Hnd Hpos]. unfold bump. split.
  - destruct (keys_of_set d k (count_of d k + 1)) as [->|[Hnot ->]];
      [exact Hnd|].
    apply NoDup_ListNoDup, NoDup_app. repeat split.
    + apply NoDup_ListNoDup, Hnd.
    + intros x Hx Hk. apply list_elem_of_In in Hx.
      apply list_elem_of_In in Hk as [<-|[]]. contradiction.
    + apply NoDup_ListNoDup. repeat constructor. intros [].
  - intros k' c Hin. apply in_counter_set in Hin as [[_ ->]|Hin]; [lia|].
    eapply Hpos, Hin.
Qed.

Lemma tidy_lookup d k c : tidy d -> In (k, c) d -> count_of d k = c.
Proof.
  intros [Hnd _]. induction d as [|[k0 n0] d IH]; simpl; intros Hin;
    [destruct Hin|].
  simpl in Hnd. inversion Hnd as [|? ? Hnot Hnd']; subst.
  destruct Hin as [[= -> ->]|Hin].
  - rewrite name_eqb_refl. reflexivity.
  - destruct (name_eqb k0 k) eqn:H0; [|apply IH; assumption].
    apply name_eqb_eq in H0. subst. exfalso. apply Hnot.
    apply in_map_iff. exists (k, c). split; [reflexivity | exact Hin].
Qed.

(** *** The loop over the history *)

Lemma tally_cases tc sc ec r :
  tally (tc, sc, ec) r =
    if succeeded r then
      (bump tc (ex_tool_name r), bump sc (ex_tool_name r), ec)
    else if errored r then
      (bump tc (ex_tool_name r), sc, bump ec (ex_tool_name r))
    else (bump tc (ex_tool_name r), sc, ec).
Proof. reflexivity. Qed.

Lemma succeeded_not_errored r : succeeded r = true -> errored r = false.
Proof.
  unfold succeeded, errored. intros Hs. apply String.eqb_eq in Hs.
  rewrite Hs. reflexivity.
Qed.

Lemma tally_counts l : forall tc sc ec,
  tidy tc ->
  let out := fold_left tally l (tc, sc, ec) in
  tidy (fst (fst out)) /\
  forall k,
    count_of (fst (fst out)) k = count_of tc k + length (List.filter (named k) l) /\
    count_of (snd (fst out)) k
      = count_of sc k +
        length (List.filter (fun r => named k r && succeeded r) l) /\
    count_of (snd out) k
      = count_of ec k +
        length (List.filter (fun r => named k r && errored r) l).
Proof.
  induction l as [|r l IH]; intros tc sc ec Htidy; cbn zeta.
  - simpl. split; [exact Htidy|]. intros k. repeat split; lia.
  - cbn [fold_left List.filter]. rewrite tally_cases.
    destruct (succeeded r) eqn:Hs.
    + rewrite (succeeded_not_errored r Hs).
      destruct (IH (bump tc (ex_tool_name r)) (bump sc (ex_tool_name r)) ec
                  (bump_tidy _ _ Htidy)) as [Ht Hk].
      split; [exact Ht|]. intros k. destruct (Hk k) as (-> & -> & ->).
      rewrite !count_of_bump. unfold named.
      destruct (name_eqb (ex_tool_name r) k); simpl; repeat split; lia.
    + destruct (errored r) eqn:He.
      * destruct (IH (bump tc (ex_tool_name r)) sc (bump ec (ex_tool_name r))
                    (bump_tidy _ _ Htidy)) as [Ht Hk].
        split; [exact Ht|]. intros k. destruct (Hk k) as (-> & -> & ->).
        rewrite !count_of_bump. unfold named.
        destruct (name_eqb (ex_tool_name r) k); simpl; repeat split; lia.
      * destruct (IH (bump tc (ex_tool_name r)) sc ec (bump_tidy _ _ Htidy))
          as [Ht Hk].
        split; [exact Ht|]. intros k. destruct (Hk k) as (-> & -> & ->).
        rewrite !count_of_bump. unfold named.
        destruct (name_eqb (ex_tool_name r) k); simpl; repeat split; lia.
Qed.

Lemma history_counts history tc sc ec :
  fold_left tally history ([], [], []) = (tc, sc, ec) ->
  tidy tc /\
  forall k,
    count_of tc k = length (List.filter (named k) history) /\
    count_of sc k
      = length (List.filter (fun r => named k r && succeeded r) history) /\
    count_of ec k
      = length (List.filter (fun r => named k r && errored r) history).
Proof.
  intros Hf.
  assert (Hempty : tidy []) by (split; [constructor | intros ? ? []]).
  pose proof (tally_counts history [] [] [] Hempty) as Hfold.
  cbn zeta in Hfold.
  assert (Hgen : forall out : Counter * Counter * Counter,
            fold_left tally history ([], [], []) = out ->
            tidy (fst (fst out)) /\
            forall k,
              count_of (fst (fst out)) k
                = count_of [] k + length (List.filter (named k) history) /\
              count_of (snd (fst out)) k
                = count_of [] k +
                  length (List.filter (fun r => named k r && succeeded r) history) /\
              count_of (snd out) k
                = count_of [] k +
                  length (List.filter (fun r => named k r && errored r) history))
    by (intros out <-; exact Hfold).
  exact (Hgen (tc, sc, ec) Hf).
Qed.

Lemma split_counts (k : option string) l :
  length (List.filter (fun r => named k r && succeeded r) l) +
  length (List.filter (fun r => named k r && errored r) l)
  <= length (List.filter (named k) l) /\
  ((forall r, In r l -> final r) ->
   length (List.filter (fun r => named k r && succeeded r) l) +
   length (List.filter (fun r => named k r && errored r) l)
   = length (List.filter (named k) l)).
Proof.
  induction l as [|r l [IHle IHeq]]; simpl; [split; [lia | reflexivity]|].
  assert (Hex : succeeded r && errored r = false).
  { unfold succeeded, errored.
    destruct (String.eqb_spec (ex_status r) "completed") as [->|]; reflexivity. }
  split.
  - destruct (named k r), (succeeded r), (errored r); simpl in *;
      try discriminate; lia.
  - intros Hall.
    assert (Hr : succeeded r || errored r = true).
    { destruct (Hall r (or_introl eq_refl)) as [Hf|[Hf|Hf]];
        unfold succeeded, errored; rewrite Hf; reflexivity. }
    specialize (IHeq (fun x Hx => Hall x (or_intror Hx))).
    destruct (named k r), (succeeded r), (errored r); simpl in *;
      try discriminate; lia.
Qed.

(** [get_tool_usage_stats] counts, for every tool name, the records of
    the history under that name, those among them that are completed and
    those that are failed or in error; successes and errors together
    never exceed the uses and make up all of them when every record has
    ended.  A success rate is listed only for a name with at least one
    use and divides the successes of that name by its uses, so it never
    divides by zero and lies between 0 and 1. *)
Theorem usage_statistics_count_the_history ex k :
  let stats := get_tool_usage_stats ex in
  let history := execution_history ex in
  let uses := count_of (tool_usage_counts stats) k in
  let successes := count_of (success_counts stats) k in
  let errors := count_of (error_counts stats) k in
  uses = length (List.filter (named k) history) /\
  successes = length (List.filter (fun r => named k r && succeeded r) history) /\
  errors = length (List.filter (fun r => named k r && errored r) history) /\
  successes + errors <= uses /\
  ((forall r, In r history -> final r) -> successes + errors = uses) /\
  (forall n m, In (k, (n, m)) (success_rates stats) ->
     n = successes /\ m = uses /\ 0 < m /\ n <= m).
Proof.
  cbn zeta. unfold get_tool_usage_stats.
  destruct (fold_left tally (execution_history ex) ([], [], []))
    as [[tc sc] ec] eqn:Hf.
  destruct (history_counts _ _ _ _ Hf) as [Htidy Hk].
  cbn [tool_usage_counts success_counts error_counts success_rates].
  destruct (Hk k) as (Hu & Hs & He). simpl in Hu, Hs, He.
  destruct (split_counts k (execution_history ex)) as [Hle Heq].
  split; [exact Hu|]. split; [exact Hs|]. split; [exact He|].
  split; [lia|]. split; [intros Hall; specialize (Heq Hall); lia|].
  intros n m Hin. apply in_map_iff in Hin as ([k0 c] & [= -> <- <-] & Hin).
  cbn [fst snd]. rewrite (tidy_lookup tc k c Htidy Hin) in Hu.
  split; [reflexivity|]. split; [symmetry; exact (tidy_lookup tc k c Htidy Hin)|].
  split; [exact (proj2 Htidy k c Hin) | lia].
Qed.

Section Histories.

Context {W : Type} `{Env W}.



End Histories.

(** *** The status report *)

(** [get_execution_status] reports the length of the whole history as
    total, and as recent the records among the last twenty that belong
    to the agent asked for, so at most twenty; asking for agent 0 is the
    same as asking for no agent, because 0 is a false value. *)
Theorem execution_status_report ex agent_id :
  let report := get_execution_status ex agent_id in
  total_executions report = length (execution_history ex) /\
  recent_executions report = length (recent_details report) /\
  recent_executions report <= 20 /\
  active_count report = length (active_details report) /\
  (forall r, In r (recent_details report) ->
     In r (execution_history ex) /\
     forall a, filters agent_id = Some a -> ToolExecutor.agent_id r = a) /\
  get_execution_status ex (Some 0%Z) = get_execution_status ex None.
Proof.
  cbn zeta. unfold get_execution_status, of_agent.
  cbn [total_executions recent_executions recent_details active_count
       active_details].
  set (history := execution_history ex).
  assert (Hlast : length (skipn (length history - 20) history) <= 20)
    by (rewrite length_skipn; lia).
  assert (Hsub : forall r, In r (skipn (length history - 20) history) ->
                           In r history).
  { intros r Hr. rewrite <- (firstn_skipn (length history - 20) history).
    apply in_or_app. right. exact Hr. }
  split; [reflexivity|]. split; [reflexivity|]. split; [|split; [reflexivity|split]].
  - destruct (filters agent_id); [|exact Hlast].
    etransitivity; [apply filter_length_le | exact Hlast].
  - intros r Hr. destruct (filters agent_id) as [a|].
    + apply filter_In in Hr as [Hr Ha]. split; [apply Hsub, Hr|].
      intros a' [= <-]. apply Z.eqb_eq, Ha.
    + split; [apply Hsub, Hr | discriminate].
  - reflexivity.
Qed.

End StatsFacts.

(* ===================================================================== *)
(** * Further properties of the agents                                    *)
(* ===================================================================== *)

Module DynamicAgentFacts.

Import ToolRegistry ToolExecutor ToolExecutorCases Reasoning.
Import AgentCases AgentMoreCases ExecutorCases.



Section Execution.

Context {W : Type} `{Env W} `{Service W} `{DynamicAgent.Helpers}.



End Execution.

End DynamicAgentFacts.

Module FactoryFacts.

Import ToolRegistry ToolExecutor ToolExecutorCases Reasoning AgentStore.
Import AgentFactory AgentTypes Orchestrator AgentCases AgentMoreCases.



(** [create_default_agent] takes capabilities, prompt and preferred
    tools from the template of the type, and the capabilities it returns
    are those [get_agent_capabilities] gives for the type.  For a type
    with a template the role passed by the caller is ignored in favour of
    the template's; for any other type the agent is generic: the caller's
    role, the single capability general_reasoning and the tools
    web_search and calculator. *)
Theorem default_agent_follows_its_template st task_id agent_type role :
  let a := snd (create_default_agent st task_id agent_type role) in
  capabilities a = get_agent_capabilities agent_type /\
  name a = agent_type /\
  (forall t, dict_get default_agent_templates agent_type = Some t ->
     AgentFactory.role a = t_role t /\ system_prompt a = t_system_prompt t /\
     preferred_tools a = t_preferred_tools t) /\
  (dict_get default_agent_templates agent_type = None ->
     AgentFactory.role a = role /\
     capabilities a = ["general_reasoning"] /\
     system_prompt a = "You are a " +:+ agent_type +:+ " agent. " +:+ role /\
     preferred_tools a = ["web_search"; "calculator"]).
Proof.
  cbn zeta. unfold create_default_agent, get_agent_capabilities.
  destruct (dict_get default_agent_templates agent_type) as [t|]; cbn.
  - split; [reflexivity|]. split; [reflexivity|].
    split; [intros t' [= <-]; repeat split | discriminate].
  - split; [reflexivity|]. split; [reflexivity|].
    split; [discriminate | intros _; repeat split].
Qed.

Section Execution.

Context {W : Type} `{Env W} `{Service W} `{AgentFactory.Helpers}.


End Execution.

Section Creation.

Context {W : Type} `{Service W}.



End Creation.

(** [_execute_agents] runs every agent exactly once, whatever the
    priorities are.  At most one phase is a batch; it is the last phase
    and holds at least two agents; every phase before it runs one agent
    of high priority. *)
Theorem every_agent_runs_once agents :
  Permutation (scheduled (_execute_agents agents)) agents /\
  (forall pre p post,
     _execute_agents agents = pre ++ p :: post ->
     is_batch p = true ->
     post = [] /\ 2 <= length (members p) /\
     Forall (fun q => exists a, q = Alone a) pre) /\
  (forall p a, In p (_execute_agents agents) -> In a (members p) ->
     is_high a = false \/ p = Alone a).
Proof.
  unfold _execute_agents, scheduled.
  set (high := List.filter is_high agents).
  set (others := List.filter (fun a => negb (is_high a)) agents).
  assert (Hflat : forall l : list AgentRecord, flat_map members (map Alone l) = l).
  { induction l as [|x l IH]; simpl; [reflexivity | rewrite IH; reflexivity]. }
  assert (Htail : flat_map members
                    match others with
                    | [] => []
                    | [a] => [Alone a]
                    | _ :: _ :: _ => [Together others]
                    end = others).
  { destruct others as [|a [|b l]]; simpl; rewrite ?app_nil_r; reflexivity. }
  assert (Halone : forall l : list AgentRecord,
            Forall (fun q => exists a, q = Alone a) (map Alone l)).
  { induction l as [|x l IH]; simpl; constructor; eauto. }
  split; [|split].
  - rewrite flat_map_app, Hflat, Htail. apply SchedulingFacts.filter_split.
  - intros pre p post Heq Hbatch.
    destruct others as [|a [|b l]] eqn:Ho.
    + rewrite app_nil_r in Heq.
      assert (Hin : In p (map Alone high))
        by (rewrite Heq; apply in_or_app; right; left; reflexivity).
      apply in_map_iff in Hin as (x & <- & _). discriminate.
    + assert (Hin : In p (map Alone high ++ [Alone a]))
        by (rewrite Heq; apply in_or_app; right; left; reflexivity).
      apply in_app_or in Hin as [Hin|[<-|[]]]; [|discriminate].
      apply in_map_iff in Hin as (x & <- & _). discriminate.
    + assert (Hpre : forall l1 (q : Phase) l2 l3,
                l1 ++ [q] = l2 ++ p :: l3 ->
                Forall (fun q => exists a, q = Alone a) l1 ->
                l3 = [] /\ q = p /\ l2 = l1).
      { intros l1 q l2 l3 Hl Hall.
        destruct l3 as [|y l3] using rev_ind.
        - apply app_inj_tail in Hl as [-> ->]. auto.
        - clear IHl3. rewrite app_comm_cons, app_assoc in Hl.
          apply app_inj_tail in Hl as [Hl _]. subst l1.
          apply Forall_app in Hall as [_ Hall].
          inversion Hall as [|? ? (x & Hx) _]; subst. discriminate. }
      destruct (Hpre _ _ _ _ Heq (Halone high)) as (-> & <- & ->).
      split; [reflexivity|]. split; [simpl; lia | apply Halone].
  - intros p a Hp Ha. apply in_app_or in Hp as [Hp|Hp].
    + apply in_map_iff in Hp as (x & <- & _). destruct Ha as [->|[]].
      right. reflexivity.
    + left.
      assert (Hin : In a others).
      { destruct others as [|x [|y l]]; [destruct Hp| |].
        - destruct Hp as [<-|[]]. exact Ha.
        - destruct Hp as [<-|[]]. exact Ha. }
      apply filter_In in Hin as [_ Hneg]. destruct (is_high a); [discriminate|].
      reflexivity.
Qed.

End FactoryFacts.

Module CancellationFacts.

Import TaskManager TaskControl AgentStore Cancellation.
Import AgentMoreCases CancellationCases.





End CancellationFacts.

Module CalculatorFacts.

Import Calculator CalculatorCases.

(** The character check of the calculator accepts every expression in
    which one of the names sin, cos, tan, log, sqrt, abs, pow occurs,
    whatever other characters it holds; an expression without such a name
    is accepted exactly when all its characters are digits, the operators
    [+-*/%], parentheses, the dot or the space. *)
Theorem function_name_switches_the_check_off expression :
  (forall func, In func allowed_functions ->
     contains func expression = true -> passes_validation expression = true) /\
  (names_no_function expression ->
   (passes_validation expression = true <->
    forall c, In c (list_ascii_of_string expression) -> allowed_char c = true)).
Proof.
  unfold passes_validation. split.
  - intros func Hin Hc. apply forallb_forall. intros c _.
    apply orb_true_iff. right. apply existsb_exists. exists func. auto.
  - intros Hnone.
    assert (Hex : existsb (fun func => contains func expression)
                          allowed_functions = false).
    { destruct (existsb _ allowed_functions) eqn:He; [|reflexivity].
      apply existsb_exists in He as (func & Hin & Hc).
      rewrite (Hnone func Hin) in Hc. discriminate. }
    rewrite Hex, forallb_forall. split.
    + intros Hall c Hc. specialize (Hall c Hc). rewrite orb_false_r in Hall.
      exact Hall.
    + intros Hall c Hc. rewrite orb_false_r. apply Hall, Hc.
Qed.

(** An expression with a name of the list, a semicolon and letters. *)
Lemma calculator_witness :
  passes_validation "abs(1); x.y" = true /\
  passes_validation "1; x.y" = false /\
  passes_validation "(1 + 2) * 3.5 % 4" = true.
Proof.
  destruct (function_name_switches_the_check_off "abs(1); x.y") as [Hname _].
  split; [apply (Hname "abs"); [simpl; tauto | reflexivity]|].
  split; [reflexivity|].
  destruct (function_name_switches_the_check_off "(1 + 2) * 3.5 % 4")
    as [_ Hplain].
  apply Hplain.
  - intros func Hin. simpl in Hin.
    repeat (destruct Hin as [<-|Hin]; [reflexivity|]). destruct Hin.
  - intros c Hc. simpl in Hc.
    repeat (destruct Hc as [<-|Hc]; [reflexivity|]). destruct Hc.
Defined.

End CalculatorFacts.
